(** * talk2api: the discovery / execution lifecycle of [tools.py]

    A shallow embedding of [src/talk2api-main/tools.py].  The module keeps one
    process-wide slot (three globals) holding the execution agent that was
    built from the last successful API Hub discovery.  The entry points are
    [discover_and_create_agent], [call_execution_agent] and
    [reset_execution_agent].

    Everything outside the module (environment variables, the credential
    chain, the HTTP transport, the API Hub toolset constructor, the tool
    enumeration and the agent runner) is an external collaborator.  Its
    answers come from a [world]; every external call is appended to a log
    kept in the program state, and the world answers from that log, so an
    answer may depend on the arguments of the call and on everything that
    happened before it. *)

From Stdlib Require Import Ascii String ZArith Lia.
From stdpp Require Import base option list strings gmap pretty.

Local Open Scope string_scope.
Local Open Scope list_scope.

(** ** Python values *)

(** The values the module inspects: what [response.json()] yields and what
    the entry points put into their result dicts.  JSON numbers are kept to
    integers (the code never computes with them).  A dict is an association
    list in insertion order. *)
#[warnings="-register-all"]
Inductive value : Type :=
  | VNone
  | VBool (b : bool)
  | VInt (z : Z)
  | VStr (s : string)
  | VList (l : list value)
  | VDict (d : list (string * value)).

Definition dict : Type := list (string * value).

(** Python truthiness, as used by [if x:] and [not x]. *)
Definition truthy (v : value) : bool :=
  match v with
  | VNone => false
  | VBool b => b
  | VInt z => negb (z =? 0)%Z
  | VStr s => negb (String.eqb s "")
  | VList l => negb (bool_decide (l = []))
  | VDict d => negb (bool_decide (d = []))
  end.

Definition str_truthy (s : string) : bool := negb (String.eqb s "").

Definition type_name (v : value) : string :=
  match v with
  | VNone => "NoneType"
  | VBool _ => "bool"
  | VInt _ => "int"
  | VStr _ => "str"
  | VList _ => "list"
  | VDict _ => "dict"
  end.

(** [d[key]] on a result dict: the binding of [key], if any. *)
Fixpoint dict_get (d : dict) (key : string) : option value :=
  match d with
  | [] => None
  | (k, v) :: rest => if String.eqb k key then Some v else dict_get rest key
  end.

(** ** Exceptions *)

Inductive exn_class : Type :=
  | RequestException
  | AttributeError
  | TypeError
  | KeyError
  | IndexError
  | UnicodeEncodeError
  | OtherException
  | CancelledError.

(** An exception object: its class and [str(e)].  Every class but
    [CancelledError] derives from [Exception]; [asyncio.CancelledError]
    derives from [BaseException] only. *)
Record exn : Type := mk_exn { exn_kind : exn_class; exn_str : string }.

Inductive outcome (A : Type) : Type :=
  | Return (a : A)
  | Raise (e : exn).
Arguments Return {A} a.
Arguments Raise {A} e.

Definition quote : string := String "034"%char "".

(** [v.get(key, default)]: only dicts have the method. *)
Definition py_get (v : value) (key : string) (default : value) : outcome value :=
  match v with
  | VDict d => Return (from_option id default (dict_get d key))
  | _ => Raise (mk_exn AttributeError
                  ("'" +:+ type_name v +:+ "' object has no attribute 'get'"))
  end.

(** [v[0]].  Keys of a dict that came from JSON are strings, so [0] is never
    bound in one. *)
Definition py_first (v : value) : outcome value :=
  match v with
  | VList (x :: _) => Return x
  | VList [] => Raise (mk_exn IndexError "list index out of range")
  | VStr (String c _) => Return (VStr (String c ""))
  | VStr EmptyString => Raise (mk_exn IndexError "string index out of range")
  | VDict _ => Raise (mk_exn KeyError "0")
  | _ => Raise (mk_exn TypeError
                  ("'" +:+ type_name v +:+ "' object is not subscriptable"))
  end.

(** [needle in hay] on strings: [needle] occurs at some position of [hay]. *)
Fixpoint str_in (needle hay : string) : bool :=
  String.prefix needle hay ||
  match hay with
  | EmptyString => false
  | String _ rest => str_in needle rest
  end.

(** [sep.join(parts)]. *)
Fixpoint join (sep : string) (parts : list string) : string :=
  match parts with
  | [] => ""
  | [p] => p
  | p :: rest => p +:+ sep +:+ join sep rest
  end.

(** ** Objects of the agent framework *)

Inductive AuthCredentialTypes : Type :=
  | API_KEY
  | HTTP
  | OAUTH2
  | OPEN_ID_CONNECT
  | SERVICE_ACCOUNT.

Record AuthCredential : Type := mk_AuthCredential {
  auth_type : AuthCredentialTypes;
  api_key : string
}.

(** One operation of a discovered API.  [auth_scheme] is [None] when the
    object has no such attribute, [Some None] when the attribute is [None],
    and [Some (Some d)] when it holds a scheme object (described by [d]).
    [auth_credential] is what [configure_auth_credential] stored. *)
Record RestApiTool : Type := mk_RestApiTool {
  tool_name : string;
  auth_scheme : option (option string);
  auth_credential : option AuthCredential
}.

(** Tool objects live in a store and are referred to by their index. *)
Definition loc : Type := nat.

Record APIHubToolset : Type := mk_APIHubToolset {
  ts_name : string;
  ts_description : string;
  ts_access_token : string;
  ts_apihub_resource_name : value;
  ts_tools : list loc
}.

Record LlmAgent : Type := mk_LlmAgent {
  model : string;
  name : string;
  description : string;
  instruction : string;
  tools : list APIHubToolset
}.

Record AgentTool : Type := mk_AgentTool { agent : LlmAgent }.

(** What the runner yields while the agent runs. *)
Record Part : Type := mk_Part { text : option string }.
Record Content : Type := mk_Content { parts : option (list Part) }.
Record Event : Type := mk_Event { content : option Content }.

(** ** External calls, the world and the program state *)

Inductive ext_call : Type :=
  | CredentialChain (sa_key_json : option string)
  | HttpPost (url : string) (headers : list (string * string)) (json : value)
  | ToolsetInit (nm descr access_token : string) (apihub_resource_name : value)
  | GetTools (toolset : APIHubToolset)
  | RunAgent (a : LlmAgent) (app_name user_id request : string).

(** The world answers an external call from the log of calls made so far,
    the call being answered last.  The credential chain and the toolset
    constructor are called synchronously inside [try ... except Exception];
    a cancellation is delivered at an [await] only, so they never raise
    [CancelledError].  The tool enumeration and the agent run are awaited
    and may. *)
Record world : Type := mk_world {
  environ : gmap string string;
  credential_chain : list ext_call -> outcome string;
  requests_post : list ext_call -> outcome value;
  apihub_toolset_init : list ext_call -> outcome (list RestApiTool);
  toolset_get_tools : list ext_call -> outcome unit;
  runner_run_async : list ext_call -> outcome (list Event);
  credential_chain_sync : forall lg e,
    credential_chain lg = Raise e -> exn_kind e <> CancelledError;
  apihub_toolset_init_sync : forall lg e,
    apihub_toolset_init lg = Raise e -> exn_kind e <> CancelledError
}.

(** The module globals, the store of tool objects and the log. *)
Record state : Type := mk_state {
  _execution_agent : option LlmAgent;
  _execution_agent_tool : option AgentTool;
  _current_tools : list string;
  heap : list RestApiTool;
  log : list ext_call
}.

Definition initial_state : state :=
  {| _execution_agent := None; _execution_agent_tool := None;
     _current_tools := []; heap := []; log := [] |}.

(** ** The monad of the embedding: world reader, state, exceptions *)

Definition M (A : Type) : Type := world -> state -> outcome A * state.

Definition ret {A} (a : A) : M A := fun _ s => (Return a, s).

Definition raise {A} (e : exn) : M A := fun _ s => (Raise e, s).

Definition bind {A B} (m : M A) (k : A -> M B) : M B :=
  fun w s =>
    match m w s with
    | (Return a, s') => k a w s'
    | (Raise e, s') => (Raise e, s')
    end.

(** [try: body except <classes selected by catches> as e: handler e]. *)
Definition try_except {A} (body : M A) (catches : exn -> bool)
    (handler : exn -> M A) : M A :=
  fun w s =>
    match body w s with
    | (Return a, s') => (Return a, s')
    | (Raise e, s') => if catches e then handler e w s' else (Raise e, s')
    end.

Definition lift {A} (o : outcome A) : M A := fun _ s => (o, s).

Definition get_state : M state := fun _ s => (Return s, s).

Definition modify (f : state -> state) : M unit := fun _ s => (Return tt, f s).

(** An external call: log it, then let the world answer. *)
Definition external {A} (c : ext_call)
    (answer : world -> list ext_call -> outcome A) : M A :=
  fun w s =>
    let s' := {| _execution_agent := _execution_agent s;
                 _execution_agent_tool := _execution_agent_tool s;
                 _current_tools := _current_tools s;
                 heap := heap s;
                 log := log s ++ [c] |} in
    (answer w (log s'), s').

(** [os.getenv(key)] and [os.getenv(key, default)]. *)
Definition getenv (key : string) : M (option string) :=
  fun w s => (Return (environ w !! key), s).

Definition getenv_default (key default : string) : M string :=
  fun w s => (Return (from_option id default (environ w !! key)), s).

Declare Scope py_scope.
Delimit Scope py_scope with py.
Notation "x <- m ;; k" := (bind m (fun x => k))
  (at level 100, m at next level, right associativity) : py_scope.
Notation "m ;;; k" := (bind m (fun _ => k))
  (at level 100, right associativity) : py_scope.
Local Open Scope py_scope.

(** [except Exception]: everything but what derives from [BaseException]
    only. *)
Definition catch_Exception (e : exn) : bool :=
  match exn_kind e with
  | CancelledError => false
  | _ => true
  end.

Definition catch_RequestException (e : exn) : bool :=
  match exn_kind e with RequestException => true | _ => false end.

(** ** State updates *)

Definition set_slot (a : option LlmAgent) (t : option AgentTool)
    (names : list string) (s : state) : state :=
  {| _execution_agent := a; _execution_agent_tool := t;
     _current_tools := names; heap := heap s; log := log s |}.

Definition set_execution_agent (a : option LlmAgent) (s : state) : state :=
  set_slot a (_execution_agent_tool s) (_current_tools s) s.

Definition set_execution_agent_tool (t : option AgentTool) (s : state) : state :=
  set_slot (_execution_agent s) t (_current_tools s) s.

Definition set_current_tools (names : list string) (s : state) : state :=
  set_slot (_execution_agent s) (_execution_agent_tool s) names s.

Definition set_heap (h : list RestApiTool) (s : state) : state :=
  {| _execution_agent := _execution_agent s;
     _execution_agent_tool := _execution_agent_tool s;
     _current_tools := _current_tools s; heap := h; log := log s |}.

(** The tool objects a toolset constructor has built enter the store. *)
Definition allocate (objs : list RestApiTool) : M (list loc) :=
  fun _ s => (Return (seq (length (heap s)) (length objs)),
              set_heap (heap s ++ objs) s).

(** Reading through a reference.  References are only ever made by
    [allocate], so the error case is there for totality. *)
Definition deref (l : loc) : M RestApiTool :=
  fun _ s =>
    match heap s !! l with
    | Some t => (Return t, s)
    | None => (Raise (mk_exn OtherException "dangling tool reference"), s)
    end.

(** [tool.configure_auth_credential(cred)] stores the credential in the
    tool object. *)
Definition configure_auth_credential (l : loc) (cred : AuthCredential) : M unit :=
  modify (fun s =>
    set_heap (alter (fun t => {| tool_name := tool_name t;
                                 auth_scheme := auth_scheme t;
                                 auth_credential := Some cred |}) l (heap s)) s).

(** [hasattr(tool, 'auth_scheme') and tool.auth_scheme]. *)
Definition declares_auth (t : RestApiTool) : bool :=
  match auth_scheme t with
  | Some (Some _) => true
  | _ => false
  end.

(** [for x in xs: body x]. *)
Fixpoint for_each {A} (xs : list A) (body : A -> M unit) : M unit :=
  match xs with
  | [] => ret tt
  | x :: rest => body x ;;; for_each rest body
  end.

(** [[f x for x in xs]]. *)
Fixpoint comprehension {A B} (xs : list A) (f : A -> M B) : M (list B) :=
  match xs with
  | [] => ret []
  | x :: rest => y <- f x ;; ys <- comprehension rest f ;; ret (y :: ys)
  end.

(** ** The functions of [tools.py] *)

Definition nl : string := String "010"%char "".

(** [if sa_json:] selects the service-account key; otherwise the default
    credential chain is used. *)
Definition sa_key_in_use (sa_json : option string) : option string :=
  match sa_json with
  | Some j => if str_truthy j then Some j else None
  | None => None
  end.

Definition get_apihub_access_token : M string :=
  try_except
    (sa_json <- getenv "APIHUB_SA_KEY_JSON" ;;
     external (CredentialChain (sa_key_in_use sa_json)) credential_chain)
    catch_Exception
    (fun _ => getenv_default "APIHUB_ACCESS_TOKEN" "").

Definition get_apihub_search_url : M string :=
  getenv_default "APIHUB_SEARCH_URL" "".

Definition get_apikey_credential : M string :=
  getenv_default "APIKEY_CREDENTIAL" "".

Definition get_auth_credential : M (option AuthCredential) :=
  api_key <- get_apikey_credential ;;
  if str_truthy api_key
  then ret (Some {| auth_type := API_KEY; api_key := api_key |})
  else ret None.

Definition str_list (l : list string) : value := VList (VStr <$> l).

Definition reset_execution_agent : M dict :=
  s <- get_state ;;
  let old_tools := _current_tools s in
  modify (set_execution_agent None) ;;;
  modify (set_execution_agent_tool None) ;;;
  modify (set_current_tools []) ;;;
  ret [("success", VBool true);
       ("message", VStr "Execution agent destroyed. Call discover_and_create_agent with a new query.");
       ("previous_tools", str_list old_tools)].

Definition create_toolset_from_apihub (apihub_resource_name : value)
    (name description : string) : M (option APIHubToolset) :=
  try_except
    (access_token <- get_apihub_access_token ;;
     objs <- external (ToolsetInit name description access_token
                         apihub_resource_name) apihub_toolset_init ;;
     refs <- allocate objs ;;
     ret (Some {| ts_name := name; ts_description := description;
                  ts_access_token := access_token;
                  ts_apihub_resource_name := apihub_resource_name;
                  ts_tools := refs |}))
    catch_Exception
    (fun _ => ret None).

(** [await toolset.get_tools()]: the tool objects of the toolset, unless the
    enumeration fails.  The toolset is built eagerly by its constructor
    ([tools.py] does not ask for lazy loading), and the enumeration hands
    out the objects the constructor built.  A toolset whose constructor
    found an empty spec and which loads the spec again when enumerated is
    not covered. *)
Definition get_tools (toolset : APIHubToolset) : M (list loc) :=
  external (GetTools toolset) toolset_get_tools ;;;
  ret (ts_tools toolset).

Definition search_api_hub (query : string) : M value :=
  search_url <- get_apihub_search_url ;;
  access_token <- get_apihub_access_token ;;
  if negb (str_truthy search_url) then ret VNone
  else if negb (str_truthy access_token) then ret VNone
  else
    let headers := [("Authorization", "Bearer " +:+ access_token);
                    ("Content-Type", "application/json")] in
    let payload := VDict [("query", VStr query);
                          ("filter", VStr "resource_type = ApiOperation");
                          ("pageSize", VInt 1)] in
    try_except
      (data <- external (HttpPost search_url headers payload) requests_post ;;
       search_results <- lift (py_get data "searchResults" (VList [])) ;;
       if negb (truthy search_results) then ret VNone
       else
         first_result <- lift (py_first search_results) ;;
         resource <- lift (py_get first_result "resource" (VDict [])) ;;
         operation <- lift (py_get resource "operation" (VDict [])) ;;
         spec <- lift (py_get operation "spec" VNone) ;;
         if truthy spec then ret spec else ret VNone)
      catch_RequestException
      (fun _ => ret VNone).

Definition execution_instruction (tool_names : list string) : string :=
  "You are an API Execution Agent with access to real API tools." +:+ nl +:+
  nl +:+
  "You have ONLY these tools available:" +:+ nl +:+
  join nl ((fun name => "- " +:+ name) <$> tool_names) +:+ nl +:+
  nl +:+
  "IMPORTANT: If you cannot fulfill the request with your available tools, " +:+ nl +:+
  "respond with EXACTLY: " +:+ quote +:+
  "TOOL_NOT_FOUND: <description of what tool is needed>" +:+ quote +:+ nl +:+
  nl +:+
  "When you CAN fulfill the request:" +:+ nl +:+
  "1. Identify which tool to use" +:+ nl +:+
  "2. Call the tool with the correct parameters" +:+ nl +:+
  "3. Return the result" +:+ nl +:+
  nl +:+
  "Be precise with parameter names - use exactly what the tool expects." +:+ nl.

Definition new_execution_agent (query : string) (tool_names : list string)
    (toolset : APIHubToolset) : LlmAgent :=
  {| model := "gemini-2.0-flash";
     name := "api_execution_agent";
     description := "Executes API calls for: " +:+ query;
     instruction := execution_instruction tool_names;
     tools := [toolset] |}.

Definition discover_and_create_agent (query : string) : M dict :=
  s <- get_state ;;
  (match _execution_agent s with
   | Some _ =>
       modify (set_execution_agent None) ;;;
       modify (set_execution_agent_tool None) ;;;
       modify (set_current_tools [])
   | None => ret tt
   end) ;;;
  apihub_resource_name <- search_api_hub query ;;
  if negb (truthy apihub_resource_name)
  then ret [("success", VBool false);
            ("message", VStr ("No API found matching: " +:+ query))]
  else
    toolset <- create_toolset_from_apihub apihub_resource_name
                 "discovered-api" ("API discovered for: " +:+ query) ;;
    match toolset with
    | None =>
        ret [("success", VBool false);
             ("message", VStr ("Failed to parse API spec for: " +:+ query +:+
                               ". The spec may be malformed."));
             ("spec", apihub_resource_name)]
    | Some toolset =>
        tools <- get_tools toolset ;;
        tool_names <- comprehension tools
                        (fun tool => t <- deref tool ;; ret (tool_name t)) ;;
        modify (set_current_tools tool_names) ;;;
        auth_cred <- get_auth_credential ;;
        (match auth_cred with
         | Some cred =>
             for_each tools (fun tool =>
               t <- deref tool ;;
               if declares_auth t
               then configure_auth_credential tool cred
               else ret tt)
         | None => ret tt
         end) ;;;
        let a := new_execution_agent query tool_names toolset in
        modify (set_execution_agent (Some a)) ;;;
        modify (set_execution_agent_tool (Some {| agent := a |})) ;;;
        ret [("success", VBool true);
             ("message", VStr ("Created execution agent with " +:+
                               pretty (length tool_names) +:+ " tools"));
             ("tools", str_list tool_names);
             ("instruction", VStr "Now use 'call_execution_agent' to execute API calls")]
    end.

(** The loop over the runner's events: [final_response] is the last non-empty
    text part seen.  A content whose [parts] is [None] makes the inner [for]
    raise. *)
Definition last_text (final_response : option string) (ps : list Part)
    : option string :=
  fold_left (fun acc part =>
               match text part with
               | Some t => if str_truthy t then Some t else acc
               | None => acc
               end) ps final_response.

Fixpoint collect_final_response (events : list Event)
    (final_response : option string) : outcome (option string) :=
  match events with
  | [] => Return final_response
  | event :: rest =>
      match content event with
      | Some c =>
          match parts c with
          | Some ps => collect_final_response rest (last_text final_response ps)
          | None => Raise (mk_exn TypeError "'NoneType' object is not iterable")
          end
      | None => collect_final_response rest final_response
      end
  end.

Definition call_execution_agent (request : string) : M dict :=
  s <- get_state ;;
  match _execution_agent s with
  | None =>
      ret [("error", VStr "No execution agent created. Call discover_and_create_agent first.")]
  | Some a =>
      try_except
        (events <- external (RunAgent a "execution_agent" "user" request)
                     runner_run_async ;;
         final_response <- lift (collect_final_response events None) ;;
         s' <- get_state ;;
         match final_response with
         | Some r =>
             if str_truthy r && str_in "TOOL_NOT_FOUND" r
             then ret [("success", VBool false);
                       ("tool_not_found", VBool true);
                       ("message", VStr r);
                       ("current_tools", str_list (_current_tools s'));
                       ("instruction", VStr "Call discover_and_create_agent with a DIFFERENT query.")]
             else ret [("success", VBool true); ("result", VStr r)]
         | None => ret [("success", VBool true); ("result", VNone)]
         end)
        catch_Exception
        (fun e => ret [("error", VStr ("Execution agent failed: " +:+ exn_str e))])
  end.

(** * Vocabulary of the statements *)

(** ** Pieces of state *)

Definition set_log (lg : list ext_call) (s : state) : state :=
  {| _execution_agent := _execution_agent s;
     _execution_agent_tool := _execution_agent_tool s;
     _current_tools := _current_tools s; heap := heap s; log := lg |}.

(** The state after step 0 of [discover_and_create_agent]. *)
Definition forget_agent (s : state) : state :=
  match _execution_agent s with
  | Some _ => set_slot None None [] s
  | None => s
  end.

Definition slot_empty (s : state) : Prop :=
  _execution_agent s = None /\ _execution_agent_tool s = None /\
  _current_tools s = [].

(** Without an agent there is no handle and no recorded tool name. *)
Definition slot_consistent (s : state) : Prop :=
  _execution_agent s = None ->
  _execution_agent_tool s = None /\ _current_tools s = [].

(** The states the entry points can produce from a fresh module, in any
    worlds and whether they return or raise. *)
Inductive reachable : state -> Prop :=
  | reach_initial : reachable initial_state
  | reach_discover s query w :
      reachable s -> reachable (discover_and_create_agent query w s).2
  | reach_call s request w :
      reachable s -> reachable (call_execution_agent request w s).2
  | reach_reset s w :
      reachable s -> reachable (reset_execution_agent w s).2.

(** The tool objects an agent can reach through its toolsets. *)
Definition agent_tool_refs (a : LlmAgent) : list loc :=
  tools a ≫= ts_tools.

(** ** External calls as the functions issue them *)

Definition credential_call (w : world) : ext_call :=
  CredentialChain (sa_key_in_use (environ w !! "APIHUB_SA_KEY_JSON")).

(** The token [get_apihub_access_token] hands out when called with log [lg]. *)
Definition access_token_at (w : world) (lg : list ext_call) : string :=
  match credential_chain w (lg ++ [credential_call w]) with
  | Return tok => tok
  | Raise _ => default "" (environ w !! "APIHUB_ACCESS_TOKEN")
  end.

Definition search_url_of (w : world) : string :=
  default "" (environ w !! "APIHUB_SEARCH_URL").

(** The log when the transport answers the request of [search_api_hub]. *)
Definition search_log (query : string) (w : world) (s : state)
    : list ext_call :=
  log s ++ [credential_call w] ++
  [HttpPost (search_url_of w)
     [("Authorization", "Bearer " +:+ access_token_at w (log s));
      ("Content-Type", "application/json")]
     (VDict [("query", VStr query);
             ("filter", VStr "resource_type = ApiOperation");
             ("pageSize", VInt 1)])].

(** The catalog answered, with no search result. *)
Definition zero_matches (data : value) : Prop :=
  exists d, data = VDict d /\
    (dict_get d "searchResults" = None \/
     dict_get d "searchResults" = Some (VList [])).

(** The log when the constructor called by [create_toolset_from_apihub]
    answers. *)
Definition toolset_init_log (w : world) (s : state)
    (apihub_resource_name : value) (name description : string)
    : list ext_call :=
  log s ++ [credential_call w] ++
  [ToolsetInit name description
     (access_token_at w (log s)) apihub_resource_name].

(** ** Tool objects and credentials *)

Definition with_credential (cred : AuthCredential) (t : RestApiTool)
    : RestApiTool :=
  {| tool_name := tool_name t; auth_scheme := auth_scheme t;
     auth_credential := Some cred |}.

(** One round of the credential loop on a tool object. *)
Definition attach (cred : AuthCredential) (t : RestApiTool) : RestApiTool :=
  if declares_auth t then with_credential cred t else t.

(** A tool object after the credential step of a discovery in world [w]. *)
Definition configured (w : world) (t : RestApiTool) : RestApiTool :=
  let key := default "" (environ w !! "APIKEY_CREDENTIAL") in
  if str_truthy key
  then attach {| auth_type := API_KEY; api_key := key |} t
  else t.

(** ** Result dicts *)

Definition no_api_result (query : string) : dict :=
  [("success", VBool false);
   ("message", VStr ("No API found matching: " +:+ query))].

Definition malformed_result (query : string) (res : value) : dict :=
  [("success", VBool false);
   ("message", VStr ("Failed to parse API spec for: " +:+ query +:+
                     ". The spec may be malformed."));
   ("spec", res)].

Definition created_result (tool_names : list string) : dict :=
  [("success", VBool true);
   ("message", VStr ("Created execution agent with " +:+
                     pretty (length tool_names) +:+ " tools"));
   ("tools", str_list tool_names);
   ("instruction", VStr "Now use 'call_execution_agent' to execute API calls")].

(** The negative result of [call_execution_agent]. *)
Definition tool_not_found (o : outcome dict) : Prop :=
  exists d, o = Return d /\
    dict_get d "success" = Some (VBool false) /\
    dict_get d "tool_not_found" = Some (VBool true).

(** ** The paths through [discover_and_create_agent] *)

Section DiscoverPaths.
Variables (query : string) (w : world) (s : state).

Definition discover_init_log (s1 : state) (res : value) : list ext_call :=
  toolset_init_log w s1 res "discovered-api"
    ("API discovered for: " +:+ query).

Definition discovered_toolset (s1 : state) (res : value)
    (objs : list RestApiTool) : APIHubToolset :=
  {| ts_name := "discovered-api";
     ts_description := "API discovered for: " +:+ query;
     ts_access_token := access_token_at w (log s1);
     ts_apihub_resource_name := res;
     ts_tools := seq (length (heap s1)) (length objs) |}.

Definition enumeration_log (s1 : state) (res : value)
    (objs : list RestApiTool) : list ext_call :=
  discover_init_log s1 res ++ [GetTools (discovered_toolset s1 res objs)].

Definition installed_state (s1 : state) (res : value)
    (objs : list RestApiTool) : state :=
  let a := new_execution_agent query (tool_name <$> objs)
             (discovered_toolset s1 res objs) in
  {| _execution_agent := Some a;
     _execution_agent_tool := Some {| agent := a |};
     _current_tools := tool_name <$> objs;
     heap := heap s1 ++ (configured w <$> objs);
     log := enumeration_log s1 res objs |}.

(** One constructor per way the function can end: the search raises, the
    search finds nothing, the constructor fails, the enumeration raises,
    the agent is installed. *)
Inductive discover_result : outcome dict * state -> Prop :=
  | DR_search_raises e s1 :
      search_api_hub query w (forget_agent s) = (Raise e, s1) ->
      discover_result (Raise e, s1)
  | DR_no_locator res s1 :
      search_api_hub query w (forget_agent s) = (Return res, s1) ->
      truthy res = false ->
      discover_result (Return (no_api_result query), s1)
  | DR_malformed res s1 e :
      search_api_hub query w (forget_agent s) = (Return res, s1) ->
      truthy res = true ->
      apihub_toolset_init w (discover_init_log s1 res) = Raise e ->
      discover_result (Return (malformed_result query res),
                       set_log (discover_init_log s1 res) s1)
  | DR_enumeration_raises res s1 objs e :
      search_api_hub query w (forget_agent s) = (Return res, s1) ->
      truthy res = true ->
      apihub_toolset_init w (discover_init_log s1 res) = Return objs ->
      toolset_get_tools w (enumeration_log s1 res objs) = Raise e ->
      discover_result (Raise e,
                       set_heap (heap s1 ++ objs)
                         (set_log (enumeration_log s1 res objs) s1))
  | DR_installed res s1 objs :
      search_api_hub query w (forget_agent s) = (Return res, s1) ->
      truthy res = true ->
      apihub_toolset_init w (discover_init_log s1 res) = Return objs ->
      toolset_get_tools w (enumeration_log s1 res objs) = Return tt ->
      discover_result (Return (created_result (tool_name <$> objs)),
                       installed_state s1 res objs).
End DiscoverPaths.

(** ** Concrete worlds *)

(** A synchronous collaborator given by a constant answer does not raise
    [CancelledError]. *)
Ltac sync_answer :=
  let H := fresh in
  intros ? ? H; first [discriminate H | injection H as <-; discriminate].

Definition crm_spec : string :=
  "projects/acme/locations/eu/apis/crm/versions/v1/specs/openapi".

Definition found (spec : string) : value :=
  VDict [("searchResults",
          VList [VDict [("resource",
                         VDict [("operation", VDict [("spec", VStr spec)])])]])].

Definition text_event (t : string) : Event :=
  {| content := Some {| parts := Some [{| text := Some t |}] |} |}.

Definition hub_environ : gmap string string :=
  {[ "APIHUB_SEARCH_URL" := "https://apihub.example/search";
     "APIKEY_CREDENTIAL" := "k-123" ]}.

(** The customer API is found; its first operation wants a key.  The agent
    answers every request with the sentinel wrapped in commentary. *)
Definition w_crm : world :=
  {| environ := hub_environ;
     credential_chain := fun _ => Return "tok";
     requests_post := fun _ => Return (found crm_spec);
     apihub_toolset_init := fun _ =>
       Return [{| tool_name := "get_customer_by_id";
                  auth_scheme := Some (Some "apiKey");
                  auth_credential := None |};
               {| tool_name := "list_customers";
                  auth_scheme := Some None;
                  auth_credential := None |}];
     toolset_get_tools := fun _ => Return tt;
     runner_run_async := fun _ =>
       Return [text_event "Sorry, TOOL_NOT_FOUND: need a shipping API"];
     credential_chain_sync := ltac:(sync_answer);
     apihub_toolset_init_sync := ltac:(sync_answer) |}.

(** A second API with one operation; the agent finishes without any text. *)
Definition w_orders : world :=
  {| environ := hub_environ;
     credential_chain := fun _ => Return "tok";
     requests_post := fun _ =>
       Return (found "projects/acme/locations/eu/apis/orders/versions/v2/specs/openapi");
     apihub_toolset_init := fun _ =>
       Return [{| tool_name := "get_order_by_id";
                  auth_scheme := Some (Some "apiKey");
                  auth_credential := None |}];
     toolset_get_tools := fun _ => Return tt;
     runner_run_async := fun _ =>
       Return [{| content := None |};
               {| content := Some {| parts := Some [{| text := None |}] |} |}];
     credential_chain_sync := ltac:(sync_answer);
     apihub_toolset_init_sync := ltac:(sync_answer) |}.

(** The catalog has no match. *)
Definition w_nomatch : world :=
  {| environ := hub_environ;
     credential_chain := fun _ => Return "tok";
     requests_post := fun _ => Return (VDict [("searchResults", VList [])]);
     apihub_toolset_init := fun _ => Return [];
     toolset_get_tools := fun _ => Return tt;
     runner_run_async := fun _ => Return [];
     credential_chain_sync := ltac:(sync_answer);
     apihub_toolset_init_sync := ltac:(sync_answer) |}.

(** The spec is found but the toolset constructor rejects it. *)
Definition w_malformed : world :=
  {| environ := hub_environ;
     credential_chain := fun _ => Return "tok";
     requests_post := fun _ => Return (found crm_spec);
     apihub_toolset_init := fun _ =>
       Raise (mk_exn OtherException "Failed to parse OpenAPI spec");
     toolset_get_tools := fun _ => Return tt;
     runner_run_async := fun _ => Return [];
     credential_chain_sync := ltac:(sync_answer);
     apihub_toolset_init_sync := ltac:(sync_answer) |}.

(** The first search result has [null] for its resource. *)
Definition w_null_resource : world :=
  {| environ := hub_environ;
     credential_chain := fun _ => Return "tok";
     requests_post := fun _ =>
       Return (VDict [("searchResults", VList [VDict [("resource", VNone)]])]);
     apihub_toolset_init := fun _ => Return [];
     toolset_get_tools := fun _ => Return tt;
     runner_run_async := fun _ => Return [];
     credential_chain_sync := ltac:(sync_answer);
     apihub_toolset_init_sync := ltac:(sync_answer) |}.

(** The toolset is built but enumerating its tools fails. *)
Definition w_enumeration_fails : world :=
  {| environ := hub_environ;
     credential_chain := fun _ => Return "tok";
     requests_post := fun _ => Return (found crm_spec);
     apihub_toolset_init := fun _ => Return [];
     toolset_get_tools := fun _ =>
       Raise (mk_exn OtherException "tool enumeration failed");
     runner_run_async := fun _ => Return [];
     credential_chain_sync := ltac:(sync_answer);
     apihub_toolset_init_sync := ltac:(sync_answer) |}.

(** The state after discovering the customer API from a fresh start. *)
Definition s_crm : state :=
  (discover_and_create_agent "customer management" w_crm initial_state).2.

(** A slot that holds an agent for a billing API with one tool, written out
    in full. *)
Definition held_agent : LlmAgent :=
  {| model := "gemini-2.0-flash";
     name := "api_execution_agent";
     description := "Executes API calls for: billing";
     instruction := execution_instruction ["get_invoice"];
     tools := [{| ts_name := "discovered-api";
                  ts_description := "API discovered for: billing";
                  ts_access_token := "tok";
                  ts_apihub_resource_name :=
                    VStr "projects/acme/locations/eu/apis/billing/versions/v1/specs/openapi";
                  ts_tools := [0] |}] |}.

Definition s_held : state :=
  {| _execution_agent := Some held_agent;
     _execution_agent_tool := Some {| agent := held_agent |};
     _current_tools := ["get_invoice"];
     heap := [{| tool_name := "get_invoice";
                 auth_scheme := Some None;
                 auth_credential := None |}];
     log := [] |}.

(** The search request cannot be sent: encoding the [Authorization] header
    fails before anything goes on the wire. *)
Definition w_unencodable_header : world :=
  {| environ := hub_environ;
     credential_chain := fun _ => Return "tok";
     requests_post := fun _ =>
       Raise (mk_exn UnicodeEncodeError
                "'latin-1' codec can't encode character in position 7: ordinal not in range(256)");
     apihub_toolset_init := fun _ => Return [];
     toolset_get_tools := fun _ => Return tt;
     runner_run_async := fun _ => Return [];
     credential_chain_sync := ltac:(sync_answer);
     apihub_toolset_init_sync := ltac:(sync_answer) |}.

(** ** Further vocabulary *)

(** The slot holds nothing, or an agent together with its handle and the
    tool names its instruction was built from. *)
Definition slot_wellformed (s : state) : Prop :=
  match _execution_agent s with
  | None => _execution_agent_tool s = None /\ _current_tools s = []
  | Some a =>
      _execution_agent_tool s = Some {| agent := a |} /\
      instruction a = execution_instruction (_current_tools s) /\
      exists ts, tools a = [ts]
  end.

(** The external calls [search_api_hub] may make. *)
Definition is_search_call (c : ext_call) : bool :=
  match c with
  | CredentialChain _ | HttpPost _ _ _ => true
  | _ => false
  end.

(** The credential chain is down; a token is configured as fallback. *)
Definition w_fallback_token : world :=
  {| environ := {[ "APIHUB_SEARCH_URL" := "https://apihub.example/search";
                   "APIHUB_ACCESS_TOKEN" := "static-token" ]};
     credential_chain := fun _ =>
       Raise (mk_exn OtherException "Could not automatically determine credentials");
     requests_post := fun _ =>
       Return (VDict [("searchResults",
                       VList [VDict [("resource",
                                VDict [("operation",
                                  VDict [("spec", VStr crm_spec)])])];
                              VDict [("resource",
                                VDict [("operation",
                                  VDict [("spec", VStr "other")])])]])]);
     apihub_toolset_init := fun _ => Return [];
     toolset_get_tools := fun _ => Return tt;
     runner_run_async := fun _ => Return [];
     credential_chain_sync := ltac:(sync_answer);
     apihub_toolset_init_sync := ltac:(sync_answer) |}.

(** The search endpoint answers with a JSON list. *)
Definition w_list_response : world :=
  {| environ := hub_environ;
     credential_chain := fun _ => Return "tok";
     requests_post := fun _ => Return (VList []);
     apihub_toolset_init := fun _ => Return [];
     toolset_get_tools := fun _ => Return tt;
     runner_run_async := fun _ => Return [];
     credential_chain_sync := ltac:(sync_answer);
     apihub_toolset_init_sync := ltac:(sync_answer) |}.

(** The agent runtime fails. *)
Definition w_runner_fails : world :=
  {| environ := hub_environ;
     credential_chain := fun _ => Return "tok";
     requests_post := fun _ => Return (found crm_spec);
     apihub_toolset_init := fun _ => Return [];
     toolset_get_tools := fun _ => Return tt;
     runner_run_async := fun _ =>
       Raise (mk_exn OtherException "model quota exceeded");
     credential_chain_sync := ltac:(sync_answer);
     apihub_toolset_init_sync := ltac:(sync_answer) |}.

(** The task running the agent is cancelled while it awaits the run. *)
Definition w_run_cancelled : world :=
  {| environ := hub_environ;
     credential_chain := fun _ => Return "tok";
     requests_post := fun _ => Return (found crm_spec);
     apihub_toolset_init := fun _ => Return [];
     toolset_get_tools := fun _ => Return tt;
     runner_run_async := fun _ => Raise (mk_exn CancelledError "");
     credential_chain_sync := ltac:(sync_answer);
     apihub_toolset_init_sync := ltac:(sync_answer) |}.

(** Nothing is configured; the collaborators are those of [w_crm]. *)
Definition w_unconfigured : world :=
  {| environ := ∅;
     credential_chain := credential_chain w_crm;
     requests_post := requests_post w_crm;
     apihub_toolset_init := apihub_toolset_init w_crm;
     toolset_get_tools := toolset_get_tools w_crm;
     runner_run_async := runner_run_async w_crm;
     credential_chain_sync := credential_chain_sync w_crm;
     apihub_toolset_init_sync := apihub_toolset_init_sync w_crm |}.

(** * Properties *)

Ltac unfold_M :=
  unfold bind, ret, raise, try_except, lift, get_state, modify, external,
    getenv, getenv_default in *.

(** ** Substring test *)

Lemma prefix_append (n post : string) : String.prefix n (n +:+ post) = true.
Proof.
  induction n as [|c n IH]; simpl.
  - by destruct post.
  - destruct (ascii_dec c c); [exact IH | congruence].
Qed.

Lemma prefix_split (n h : string) :
  String.prefix n h = true -> exists post, h = n +:+ post.
Proof.
  revert h. induction n as [|c n IH]; intros h Hp.
  - by exists h.
  - destruct h as [|c' h]; simpl in Hp; [discriminate|].
    destruct (ascii_dec c c') as [->|]; [|discriminate].
    destruct (IH _ Hp) as [post ->]. by exists post.
Qed.

Lemma str_in_prefix (n h : string) :
  String.prefix n h = true -> str_in n h = true.
Proof.
  intros Hp. destruct h; unfold str_in; fold str_in; by rewrite Hp.
Qed.

Lemma str_in_occurs (n h : string) :
  str_in n h = true <-> exists pre post, h = pre +:+ n +:+ post.
Proof.
  split.
  - induction h as [|c h IH]; intros Hin.
    + destruct n; [by exists "", "" | discriminate].
    + change (String.prefix n (String c h) || str_in n h = true) in Hin.
      apply orb_true_iff in Hin as [Hp|Hin].
      * destruct (prefix_split _ _ Hp) as [post ->]. by exists "", post.
      * destruct (IH Hin) as (pre & post & ->). by exists (String c pre), post.
  - intros (pre & post & ->). induction pre as [|c pre IH].
    + apply (str_in_prefix n (n +:+ post)), prefix_append.
    + change (String.prefix n (String c (pre +:+ n +:+ post))
              || str_in n (pre +:+ n +:+ post) = true).
      rewrite IH. apply orb_true_r.
Qed.

(** ** Credentials, search and toolset construction *)

Lemma catch_Exception_kind e :
  exn_kind e <> CancelledError -> catch_Exception e = true.
Proof. unfold catch_Exception. by destruct (exn_kind e). Qed.

Lemma get_apihub_access_token_eq w s :
  get_apihub_access_token w s =
  (Return (access_token_at w (log s)), set_log (log s ++ [credential_call w]) s).
Proof.
  unfold get_apihub_access_token, access_token_at, credential_call. unfold_M. cbn.
  destruct (credential_chain w _) as [tok|e] eqn:Hchain; [done|].
  by rewrite (catch_Exception_kind e (credential_chain_sync w _ _ Hchain)).
Qed.

Lemma search_api_hub_frame q w s o s1 :
  search_api_hub q w s = (o, s1) -> s1 = set_log (log s1) s.
Proof.
  unfold search_api_hub, get_apihub_search_url.
  unfold bind at 1 2. unfold getenv_default at 1.
  rewrite get_apihub_access_token_eq. unfold_M. cbn.
  intros H. destruct s. repeat case_match; simplify_eq; reflexivity.
Qed.

(** What [create_toolset_from_apihub] does, by the constructor's answer. *)
Lemma create_toolset_from_apihub_eq res name description w s :
  create_toolset_from_apihub res name description w s =
  let lg := toolset_init_log w s res name description in
  match apihub_toolset_init w lg with
  | Return objs =>
      (Return (Some {| ts_name := name; ts_description := description;
                       ts_access_token := access_token_at w (log s);
                       ts_apihub_resource_name := res;
                       ts_tools := seq (length (heap s)) (length objs) |}),
       set_heap (heap s ++ objs) (set_log lg s))
  | Raise _ => (Return None, set_log lg s)
  end.
Proof.
  unfold create_toolset_from_apihub, toolset_init_log.
  unfold try_except, bind at 1. rewrite get_apihub_access_token_eq.
  unfold_M. unfold allocate. cbn. rewrite <- app_assoc. cbn.
  destruct (apihub_toolset_init w _) as [objs|e] eqn:Hinit; [done|].
  by rewrite (catch_Exception_kind e (apihub_toolset_init_sync w _ _ Hinit)).
Qed.

(** The two loops over the freshly built tools. *)
Lemma tool_names_of_fresh w (objs : list RestApiTool) : forall (h : list RestApiTool) s,
  heap s = (h ++ objs) ->
  comprehension (seq (length h) (length objs))
    (fun tool => t <- deref tool ;; ret (tool_name t)) w s =
  (Return (tool_name <$> objs), s).
Proof.
  induction objs as [|o objs IH]; intros h s Hh; [reflexivity|].
  cbn [length seq comprehension]. unfold bind at 1 2, deref at 1.
  rewrite Hh, lookup_app_r, Nat.sub_diag by lia. cbn.
  unfold bind at 1.
  specialize (IH (h ++ [o]) s). rewrite length_app, Nat.add_1_r in IH.
  rewrite IH; [reflexivity|]. by rewrite Hh, <- app_assoc.
Qed.

Lemma configure_fresh w cred (objs : list RestApiTool) :
  forall (h : list RestApiTool) s,
  heap s = (h ++ objs) ->
  for_each (seq (length h) (length objs))
    (fun tool => t <- deref tool ;;
       if declares_auth t then configure_auth_credential tool cred else ret tt)
    w s =
  (Return tt, set_heap (h ++ (attach cred <$> objs)) s).
Proof.
  induction objs as [|o objs IH]; intros h s Hh.
  - cbn. unfold ret. f_equal. destruct s; cbn in *. by rewrite Hh.
  - cbn [length seq for_each]. unfold bind at 1 2, deref at 1.
    rewrite Hh, lookup_app_r, Nat.sub_diag by lia. cbn [lookup list_lookup].
    assert ((if declares_auth o
             then configure_auth_credential (length h) cred else ret tt) w s =
            (Return tt, set_heap (h ++ attach cred o :: objs) s)) as ->.
    { unfold attach. destruct (declares_auth o).
      - unfold configure_auth_credential, modify. rewrite Hh.
        rewrite <- (Nat.add_0_r (length h)) at 1. by rewrite alter_app_r.
      - unfold ret. destruct s; cbn in *. by rewrite Hh. }
    specialize (IH (h ++ [attach cred o])
                  (set_heap (h ++ attach cred o :: objs) s)).
    rewrite length_app, Nat.add_1_r in IH.
    rewrite IH by (cbn; by rewrite <- app_assoc).
    unfold set_heap; cbn. by rewrite <- app_assoc.
Qed.

(** ** The paths through [discover_and_create_agent] *)

Lemma discover_and_create_agent_paths query w s :
  discover_result query w s (discover_and_create_agent query w s).
Proof.
  assert (discover_and_create_agent query w s =
          (apihub_resource_name <- search_api_hub query ;;
           if negb (truthy apihub_resource_name)
           then ret (no_api_result query)
           else
             toolset <- create_toolset_from_apihub apihub_resource_name
                          "discovered-api" ("API discovered for: " +:+ query) ;;
             match toolset with
             | None => ret (malformed_result query apihub_resource_name)
             | Some toolset =>
                 tools <- get_tools toolset ;;
                 tool_names <- comprehension tools
                                 (fun tool => t <- deref tool ;; ret (tool_name t)) ;;
                 modify (set_current_tools tool_names) ;;;
                 auth_cred <- get_auth_credential ;;
                 (match auth_cred with
                  | Some cred =>
                      for_each tools (fun tool =>
                        t <- deref tool ;;
                        if declares_auth t
                        then configure_auth_credential tool cred
                        else ret tt)
                  | None => ret tt
                  end) ;;;
                 let a := new_execution_agent query tool_names toolset in
                 modify (set_execution_agent (Some a)) ;;;
                 modify (set_execution_agent_tool (Some {| agent := a |})) ;;;
                 ret (created_result tool_names)
             end) w (forget_agent s)) as ->.
  { unfold discover_and_create_agent, forget_agent.
    unfold bind at 1 2, get_state at 1.
    by destruct (_execution_agent s). }
  unfold bind at 1.
  destruct (search_api_hub query w (forget_agent s)) as [[res|e] s1] eqn:Hsearch;
    [|by eapply DR_search_raises].
  destruct (truthy res) eqn:Hres; cbn [negb];
    [|by eapply DR_no_locator].
  unfold bind at 1. rewrite create_toolset_from_apihub_eq. cbn zeta.
  fold (discover_init_log query w s1 res).
  destruct (apihub_toolset_init w (discover_init_log query w s1 res))
    as [objs|e] eqn:Hinit; [|by eapply DR_malformed].
  fold (discovered_toolset query w s1 res objs).
  unfold bind at 1, get_tools, bind at 1, external at 1.
  cbn [log set_heap set_log ts_tools discovered_toolset].
  fold (discovered_toolset query w s1 res objs).
  fold (enumeration_log query w s1 res objs).
  destruct (toolset_get_tools w (enumeration_log query w s1 res objs)) as [[]|e] eqn:Henum.
  2:{ eapply DR_enumeration_raises; eauto. }
  unfold ret at 1. unfold bind at 1.
  rewrite (tool_names_of_fresh w objs (heap s1)) by reflexivity.
  unfold bind at 1, modify at 1, bind at 1.
  unfold get_auth_credential, get_apikey_credential, bind at 1, getenv_default.
  match goal with
  | |- discover_result _ _ _ ?x =>
      assert (x = (Return (created_result (tool_name <$> objs)),
                   installed_state query w s1 res objs)) as ->;
        [|by eapply DR_installed]
  end.
  unfold installed_state, configured. cbn zeta.
  destruct (str_truthy (default "" (environ w !! "APIKEY_CREDENTIAL"))).
  - unfold ret at 1. unfold bind at 1.
    rewrite (configure_fresh w _ objs (heap s1)) by reflexivity.
    reflexivity.
  - unfold_M. cbn. by rewrite list_fmap_id.
Qed.

(** The names recorded by a discovery are those of the tool objects its
    toolset refers to. *)
Lemma tool_name_configured w t : tool_name (configured w t) = tool_name t.
Proof.
  unfold configured, attach.
  destruct (str_truthy _); [destruct (declares_auth t)|]; done.
Qed.

Lemma fresh_tool_names w (h objs : list RestApiTool) :
  (fun l => tool_name <$> (h ++ (configured w <$> objs)) !! l)
    <$> seq (length h) (length objs)
  = Some <$> (tool_name <$> objs).
Proof.
  apply list_eq. intros i. rewrite !list_lookup_fmap.
  destruct (decide (i < length objs)) as [Hi|Hi].
  - rewrite lookup_seq_lt by done. cbn.
    rewrite lookup_app_r by lia.
    replace (length h + i - length h) with i by lia.
    rewrite list_lookup_fmap.
    destruct (objs !! i) as [t|] eqn:E; cbn.
    + by rewrite tool_name_configured.
    + apply lookup_ge_None in E. lia.
  - rewrite lookup_seq_ge by lia. by rewrite (lookup_ge_None_2 objs) by lia.
Qed.

(** ** What the other entry points leave alone *)

Lemma reset_execution_agent_eq w s :
  reset_execution_agent w s =
  (Return [("success", VBool true);
           ("message", VStr "Execution agent destroyed. Call discover_and_create_agent with a new query.");
           ("previous_tools", str_list (_current_tools s))],
   set_slot None None [] s).
Proof. reflexivity. Qed.

Lemma call_execution_agent_frame request w s :
  exists o lg, call_execution_agent request w s = (o, set_log lg s).
Proof.
  unfold call_execution_agent. unfold_M.
  destruct s as [[a|] t names h lg]; cbn; [|by eexists _, _].
  destruct (runner_run_async w _) as [events|e]; cbn;
    [|destruct (catch_Exception e); by eexists _, _].
  destruct (collect_final_response events None) as [[r|]|e]; cbn;
    try destruct (_ && _); try destruct (catch_Exception e); by eexists _, _.
Qed.


Lemma discover_from_forgotten query w s :
  discover_and_create_agent query w s =
  discover_and_create_agent query w (forget_agent s).
Proof.
  unfold discover_and_create_agent, forget_agent.
  unfold bind at 1 2, get_state at 1.
  symmetry. unfold bind at 1 2, get_state at 1.
  by destruct (_execution_agent s) eqn:Ha; cbn; [|rewrite Ha].
Qed.

Lemma call_execution_agent_runs request w s a :
  _execution_agent s = Some a ->
  log (call_execution_agent request w s).2 =
  log s ++ [RunAgent a "execution_agent" "user" request].
Proof.
  intros Ha. unfold call_execution_agent. unfold_M. rewrite Ha. cbn.
  destruct (runner_run_async w _) as [events|e]; cbn;
    [|by destruct (catch_Exception e)].
  destruct (collect_final_response events None) as [[r|]|e]; cbn;
    try destruct (_ && _); try destruct (catch_Exception e); done.
Qed.

(** ** The slot in reachable states *)

Lemma forget_agent_empty s : slot_consistent s -> slot_empty (forget_agent s).
Proof.
  unfold slot_consistent, slot_empty, forget_agent.
  destruct (_execution_agent s) eqn:Ha; cbn; [done|].
  intros H. by destruct (H eq_refl).
Qed.

Lemma slot_empty_set_log lg s : slot_empty s -> slot_empty (set_log lg s).
Proof. done. Qed.

Lemma search_keeps_empty query w s o s1 :
  search_api_hub query w s = (o, s1) -> slot_empty s -> slot_empty s1.
Proof. intros H Hs. rewrite (search_api_hub_frame _ _ _ _ _ H). done. Qed.

Lemma discover_keeps_consistent query w s :
  slot_consistent s -> slot_consistent (discover_and_create_agent query w s).2.
Proof.
  intros Hs. apply forget_agent_empty in Hs.
  destruct (discover_and_create_agent_paths query w s)
    as [e s1 H|res s1 H|res s1 e H|res s1 objs e H|res s1 objs H];
    try (apply (search_keeps_empty _ _ _ _ _ H) in Hs;
         destruct Hs as (? & ? & ?); by intros _).
  by intros ?.
Qed.

Lemma reachable_consistent s : reachable s -> slot_consistent s.
Proof.
  induction 1 as [|s query w _ IH|s request w _ IH|s w _ IH].
  - done.
  - by apply discover_keeps_consistent.
  - destruct (call_execution_agent_frame request w s) as (d & lg & ->). exact IH.
  - done.
Qed.

(** ** Which calls can raise *)

(** [call_execution_agent] returns a dict unless the run is cancelled: the
    only exception its [except Exception] lets through is a
    [CancelledError].  [reset_execution_agent] always returns a dict. *)
Lemma call_execution_agent_returns request w s :
  (exists d, (call_execution_agent request w s).1 = Return d) \/
  (exists e, (call_execution_agent request w s).1 = Raise e /\
             exn_kind e = CancelledError).
Proof.
  unfold call_execution_agent. unfold_M.
  destruct s as [[a|] t names h lg]; cbn; [|by left; eexists].
  destruct (runner_run_async w _) as [events|e]; cbn.
  - destruct (collect_final_response events None) as [[r|]|e]; cbn;
      try destruct (_ && _); try (by left; eexists).
    unfold catch_Exception.
    destruct (exn_kind e) eqn:He; cbn; try (by left; eexists).
    right. by eexists.
  - unfold catch_Exception.
    destruct (exn_kind e) eqn:He; cbn; try (by left; eexists).
    right. by eexists.
Qed.

Lemma reset_execution_agent_returns w s :
  exists d, (reset_execution_agent w s).1 = Return d.
Proof. by eexists. Qed.

(** X8: [discover_and_create_agent] raises only what the search let through
    or what the tool enumeration raised; a failure of the credential chain
    or of the toolset constructor never escapes it. *)
Lemma discover_raises_only_from query w s e :
  (discover_and_create_agent query w s).1 = Raise e ->
  (search_api_hub query w (forget_agent s)).1 = Raise e \/
  exists lg, toolset_get_tools w lg = Raise e.
Proof.
  destruct (discover_and_create_agent_paths query w s)
    as [e' s1 H|res s1 H|res s1 e' H|res s1 objs e' H ? ? Henum|res s1 objs H];
    intros Heq; try discriminate Heq; injection Heq as <-.
  - left. by rewrite H.
  - right. eauto.
Qed.

(** X4: an exception that escapes [search_api_hub] is never a
    [RequestException]: those are caught and turned into [None]. *)
Lemma search_api_hub_raises query w s e :
  (search_api_hub query w s).1 = Raise e -> exn_kind e <> RequestException.
Proof.
  unfold search_api_hub, get_apihub_search_url.
  unfold bind at 1 2. unfold getenv_default at 1.
  rewrite get_apihub_access_token_eq. unfold_M. unfold catch_RequestException.
  cbn. intros H He.
  repeat case_match; simplify_eq; cbn in *; try congruence.
Qed.


(** * The entry points *)

(** C1: a call to [discover_and_create_agent] that returns [success: False]
    (no locator from the search, or the toolset could not be built) leaves
    the slot empty: no agent, no handle, no tool names.  This holds when
    an agent was in the slot before the call, whatever handle and tool
    names came with it, and when the slot was empty before the call. *)
Theorem failed_discovery_empties_slot query w s d s' :
  is_Some (_execution_agent s) \/ slot_empty s ->
  discover_and_create_agent query w s = (Return d, s') ->
  dict_get d "success" = Some (VBool false) ->
  slot_empty s' /\
  (d = no_api_result query \/ exists res, d = malformed_result query res).
Proof.
  intros Hs Hrun Hd.
  assert (slot_empty (forget_agent s)) as Hempty.
  { apply forget_agent_empty. intros Ha.
    destruct Hs as [[a Hsome]|(_ & Ht & Hn)]; [congruence|done]. }
  pose proof (discover_and_create_agent_paths query w s) as Hp.
  rewrite Hrun in Hp. inversion Hp as
    [e s1 H|res s1 H|res s1 e H|res s1 objs e H|res s1 objs H]; subst.
  - split; [|by left]. by apply (search_keeps_empty _ _ _ _ _ H).
  - split; [|by right; eexists].
    by apply slot_empty_set_log, (search_keeps_empty _ _ _ _ _ H).
  - discriminate Hd.
Qed.

Lemma failed_discovery_empties_slot_witness :
  _execution_agent s_held = Some held_agent /\
  _execution_agent_tool s_held = Some {| agent := held_agent |} /\
  _current_tools s_held = ["get_invoice"] /\
  slot_empty (discover_and_create_agent "shipping" w_nomatch s_held).2 /\
  slot_empty (discover_and_create_agent "shipping" w_malformed s_held).2.
Proof.
  split; [reflexivity|]. split; [reflexivity|]. split; [reflexivity|]. split.
  - eapply (failed_discovery_empties_slot "shipping" w_nomatch s_held).
    + left. by eexists.
    + vm_compute. reflexivity.
    + reflexivity.
  - eapply (failed_discovery_empties_slot "shipping" w_malformed s_held).
    + left. by eexists.
    + vm_compute. reflexivity.
    + reflexivity.
Defined.

(** C2: with an agent installed and a delegate run that ends with response
    text [r], [call_execution_agent] reports a negative result
    ([success: False] with [tool_not_found: True]) exactly when
    [TOOL_NOT_FOUND] occurs somewhere in [r]. *)
Theorem sentinel_is_substring_test request w s a events r :
  _execution_agent s = Some a ->
  runner_run_async w (log s ++ [RunAgent a "execution_agent" "user" request])
    = Return events ->
  collect_final_response events None = Return (Some r) ->
  tool_not_found (call_execution_agent request w s).1 <->
  exists pre post, r = pre +:+ "TOOL_NOT_FOUND" +:+ post.
Proof.
  intros Ha Hrun Hr. rewrite <- str_in_occurs.
  unfold call_execution_agent. unfold_M. rewrite Ha. cbn.
  rewrite Hrun. cbn. rewrite Hr. cbn.
  destruct (str_in "TOOL_NOT_FOUND" r) eqn:Hin.
  - assert (str_truthy r = true) as ->.
    { destruct r; [discriminate Hin | reflexivity]. }
    cbn. split; [done|]. intros _. by eexists.
  - rewrite andb_false_r. cbn. split; [|done].
    intros (d & [= <-] & Hs & _). discriminate Hs.
Qed.

Lemma sentinel_is_substring_test_witness :
  tool_not_found (call_execution_agent "ship order 456" w_crm s_crm).1.
Proof.
  eapply (sentinel_is_substring_test "ship order 456" w_crm s_crm).
  - vm_compute. reflexivity.
  - reflexivity.
  - reflexivity.
  - exists "Sorry, ", ": need a shipping API". reflexivity.
Defined.

(** C3 (failing inputs): [discover_and_create_agent] lets an exception
    escape when the first search result has [null] for its resource, and
    when enumerating the tools of the new toolset fails. *)
Theorem discover_propagates_exceptions :
  (discover_and_create_agent "customer management" w_null_resource
     initial_state).1 =
    Raise (mk_exn AttributeError "'NoneType' object has no attribute 'get'") /\
  (discover_and_create_agent "customer management" w_enumeration_fails
     initial_state).1 =
    Raise (mk_exn OtherException "tool enumeration failed").
Proof. split; vm_compute; reflexivity. Qed.

(** C4: after two successful discoveries in a row the slot holds exactly
    what the second one built: the agent (made for the second query, over
    the second toolset, instructed with the second tool names), its handle
    and the names of the second toolset's tools.  The second call behaves as if it had started
    from an empty slot, no tool object of the first agent is among those of
    the second, and [call_execution_agent] runs the second agent. *)
Theorem replacement_is_total q1 w1 q2 w2 s0 d1 s1 d2 s2 :
  discover_and_create_agent q1 w1 s0 = (Return d1, s1) ->
  dict_get d1 "success" = Some (VBool true) ->
  discover_and_create_agent q2 w2 s1 = (Return d2, s2) ->
  dict_get d2 "success" = Some (VBool true) ->
  exists a1 a2 ts2,
    _execution_agent s1 = Some a1 /\
    _execution_agent s2 = Some a2 /\
    _execution_agent_tool s2 = Some {| agent := a2 |} /\
    d2 = created_result (_current_tools s2) /\
    a2 = new_execution_agent q2 (_current_tools s2) ts2 /\
    (fun l => tool_name <$> heap s2 !! l) <$> ts_tools ts2
      = Some <$> _current_tools s2 /\
    discover_and_create_agent q2 w2 (set_slot None None [] s1)
      = (Return d2, s2) /\
    (forall l, l ∈ agent_tool_refs a1 -> l ∉ agent_tool_refs a2) /\
    (forall request w3,
       log (call_execution_agent request w3 s2).2 =
       log s2 ++ [RunAgent a2 "execution_agent" "user" request]).
Proof.
  intros Hrun1 Hd1 Hrun2 Hd2.
  pose proof (discover_and_create_agent_paths q1 w1 s0) as Hp1.
  rewrite Hrun1 in Hp1. inversion Hp1 as
    [| | | |res1 s1' objs1 Hs1 _ _ _]; subst; try discriminate Hd1.
  pose proof (discover_and_create_agent_paths q2 w2
                (installed_state q1 w1 s1' res1 objs1)) as Hp2.
  rewrite Hrun2 in Hp2. inversion Hp2 as
    [| | | |res2 s2' objs2 Hs2 _ _ _]; subst; try discriminate Hd2.
  eexists _, _, (discovered_toolset q2 w2 s2' res2 objs2).
  split; [reflexivity|]. split; [reflexivity|]. split; [reflexivity|].
  split; [reflexivity|]. split; [reflexivity|].
  split; [apply fresh_tool_names|].
  split; [by rewrite (discover_from_forgotten q2 w2) in Hrun2|].
  split.
  - intros l. unfold agent_tool_refs. cbn. rewrite !app_nil_r, !elem_of_seq.
    rewrite (search_api_hub_frame _ _ _ _ _ Hs2). cbn.
    rewrite length_app, length_fmap. lia.
  - intros request w3. by apply call_execution_agent_runs.
Qed.

Lemma replacement_is_total_witness :
  exists a2,
    _execution_agent (discover_and_create_agent "orders" w_orders s_crm).2
      = Some a2 /\
    description a2 = "Executes API calls for: orders" /\
    agent_tool_refs a2 = [2].
Proof.
  destruct (replacement_is_total "customer management" w_crm "orders" w_orders
              initial_state
              (created_result ["get_customer_by_id"; "list_customers"]) s_crm
              (created_result ["get_order_by_id"])
              (discover_and_create_agent "orders" w_orders s_crm).2)
    as (a1 & a2 & ts2 & _ & Ha2 & _).
  - vm_compute. reflexivity.
  - reflexivity.
  - vm_compute. reflexivity.
  - reflexivity.
  - exists a2. split; [exact Ha2|].
    vm_compute in Ha2. injection Ha2 as <-. split; reflexivity.
Defined.

(** C5: while the slot holds no agent, [call_execution_agent] returns the
    fixed error dict at once; the state, and with it the log of external
    calls, is unchanged, so nothing was sent to the network or to a
    delegate. *)
Theorem call_without_agent request w s :
  _execution_agent s = None ->
  call_execution_agent request w s =
  (Return [("error",
            VStr "No execution agent created. Call discover_and_create_agent first.")],
   s).
Proof. intros Ha. unfold call_execution_agent. unfold_M. by rewrite Ha. Qed.

Lemma call_without_agent_witness :
  call_execution_agent "get customer 123" w_crm initial_state =
  (Return [("error",
            VStr "No execution agent created. Call discover_and_create_agent first.")],
   initial_state).
Proof. apply (call_without_agent "get customer 123" w_crm initial_state). reflexivity. Defined.

(** C6: [reset_execution_agent] on an empty slot changes nothing, succeeds
    and reports no previous tools; from any state, the second of two resets
    in a row returns [success: True] with [previous_tools] equal to [[]]. *)
Theorem reset_twice w1 w2 s h lg :
  reset_execution_agent w1 (mk_state None None [] h lg) =
    (Return [("success", VBool true);
             ("message", VStr "Execution agent destroyed. Call discover_and_create_agent with a new query.");
             ("previous_tools", VList [])],
     mk_state None None [] h lg) /\
  (reset_execution_agent w2 (reset_execution_agent w1 s).2).1 =
    Return [("success", VBool true);
            ("message", VStr "Execution agent destroyed. Call discover_and_create_agent with a new query.");
            ("previous_tools", VList [])].
Proof. split; reflexivity. Qed.

(** C7: when the search yields a locator and the toolset constructor fails
    on it, [discover_and_create_agent] returns [success: False] with the
    "spec may be malformed" message and the locator under ["spec"]; the
    result has no ["tools"] entry and differs from every no-match result,
    which has no ["spec"] entry. *)
Theorem malformed_spec_is_reported query w s res s1 e :
  search_api_hub query w (forget_agent s) = (Return res, s1) ->
  truthy res = true ->
  apihub_toolset_init w (discover_init_log query w s1 res) = Raise e ->
  let d := (discover_and_create_agent query w s).1 in
  d = Return [("success", VBool false);
              ("message", VStr ("Failed to parse API spec for: " +:+ query +:+
                                ". The spec may be malformed."));
              ("spec", res)] /\
  (forall query', d <> Return (no_api_result query')) /\
  (forall query', dict_get (no_api_result query') "spec" = None) /\
  (forall names, d <> Return (created_result names)).
Proof.
  intros Hsearch Hres Hinit d.
  pose proof (discover_and_create_agent_paths query w s) as Hp.
  assert (d = Return (malformed_result query res)) as ->.
  { subst d. destruct (discover_and_create_agent query w s) as [o s'].
    inversion Hp as
      [e' s1' H|res' s1' H|res' s1' e' H|res' s1' objs e' H|res' s1' objs H];
      rewrite Hsearch in H; simplify_eq; try done; congruence. }
  repeat split; done.
Qed.

Lemma malformed_spec_is_reported_witness :
  (discover_and_create_agent "customer management" w_malformed s_crm).1 =
  Return [("success", VBool false);
          ("message", VStr "Failed to parse API spec for: customer management. The spec may be malformed.");
          ("spec", VStr crm_spec)].
Proof.
  eapply (malformed_spec_is_reported "customer management" w_malformed s_crm).
  - vm_compute. reflexivity.
  - reflexivity.
  - reflexivity.
Defined.

(** X24: [search_api_hub] returns [None], and does not raise, when the
    search URL is not configured, when no access token is obtained, when the
    transport raises a [RequestException], and when the catalog answers
    with no search result; the caller sees the same [None] in all four
    cases. *)
Theorem search_api_hub_none query w s :
  search_url_of w = "" \/
  access_token_at w (log s) = "" \/
  (exists e, requests_post w (search_log query w s) = Raise e /\
             exn_kind e = RequestException) \/
  (exists data, requests_post w (search_log query w s) = Return data /\
                zero_matches data) ->
  (search_api_hub query w s).1 = Return VNone.
Proof.
  intros Hcase.
  unfold search_api_hub, get_apihub_search_url.
  unfold bind at 1 2. unfold getenv_default at 1.
  rewrite get_apihub_access_token_eq. fold (search_url_of w).
  destruct (str_truthy (search_url_of w)) eqn:Hurl; [|done].
  destruct (str_truthy (access_token_at w (log s))) eqn:Htok; [|done].
  cbn [negb]. unfold try_except, bind at 1, external at 1.
  cbn [log set_log]. rewrite <- app_assoc. fold (search_log query w s).
  destruct Hcase as [E|[E|[(e & -> & He)|(data & -> & d & -> & Hd)]]].
  - by rewrite E in Hurl.
  - by rewrite E in Htok.
  - unfold catch_RequestException. by rewrite He.
  - unfold_M. cbn. by destruct Hd as [-> | ->].
Qed.

Lemma search_api_hub_none_witness :
  (search_api_hub "shipping" w_nomatch s_crm).1 = Return VNone.
Proof.
  apply (search_api_hub_none "shipping" w_nomatch s_crm).
  right. right. right. exists (VDict [("searchResults", VList [])]).
  split; [reflexivity|]. exists [("searchResults", VList [])].
  split; [reflexivity|]. right. reflexivity.
Defined.

(** A request that fails with an exception outside [RequestException]
    is not turned into [None]: [search_api_hub] raises it. *)
Lemma search_api_hub_other_failure query w s e :
  str_truthy (search_url_of w) = true ->
  str_truthy (access_token_at w (log s)) = true ->
  requests_post w (search_log query w s) = Raise e ->
  exn_kind e <> RequestException ->
  (search_api_hub query w s).1 = Raise e.
Proof.
  intros Hurl Htok Hpost He.
  unfold search_api_hub, get_apihub_search_url.
  unfold bind at 1 2. unfold getenv_default at 1.
  rewrite get_apihub_access_token_eq. fold (search_url_of w).
  rewrite Hurl, Htok. cbn [negb].
  unfold try_except, bind at 1, external at 1.
  cbn [log set_log]. rewrite <- app_assoc. fold (search_log query w s).
  rewrite Hpost. unfold catch_RequestException.
  by destruct (exn_kind e).
Qed.

(** C8 (failing input): with the search URL and a token in place, a search
    request that fails with a [UnicodeEncodeError] (not a
    [RequestException]) makes [search_api_hub] raise instead of returning
    [None], and the exception leaves [discover_and_create_agent] too. *)
Theorem search_api_hub_transport_failure_escapes :
  (search_api_hub "customer management" w_unencodable_header
     initial_state).1 =
    Raise (mk_exn UnicodeEncodeError
             "'latin-1' codec can't encode character in position 7: ordinal not in range(256)") /\
  (discover_and_create_agent "customer management" w_unencodable_header
     initial_state).1 =
    Raise (mk_exn UnicodeEncodeError
             "'latin-1' codec can't encode character in position 7: ordinal not in range(256)").
Proof. split; vm_compute; reflexivity. Qed.

(** C9: a successful [discover_and_create_agent] builds the agent over a
    toolset whose tools are the objects the constructor made.  When the
    call returns, every one of them that declares an auth scheme carries
    the configured API key, provided a key is configured; the ones without
    a scheme are as the constructor made them, and so are all of them when
    no key is configured.  Tool objects that existed before are untouched,
    and a later [call_execution_agent] changes no tool object. *)
Theorem credentials_attached_at_materialization query w s d s' :
  discover_and_create_agent query w s = (Return d, s') ->
  dict_get d "success" = Some (VBool true) ->
  let key := default "" (environ w !! "APIKEY_CREDENTIAL") in
  let cred := {| auth_type := API_KEY; api_key := key |} in
  exists a ts objs lg,
    _execution_agent s' = Some a /\ tools a = [ts] /\
    log s' = lg ++ [GetTools ts] /\
    apihub_toolset_init w lg = Return objs /\
    ts_tools ts = seq (length (heap s)) (length objs) /\
    _current_tools s' = tool_name <$> objs /\
    (forall i t, objs !! i = Some t ->
       (str_truthy key = true -> declares_auth t = true ->
          heap s' !! (length (heap s) + i) = Some (with_credential cred t)) /\
       (declares_auth t = false ->
          heap s' !! (length (heap s) + i) = Some t) /\
       (str_truthy key = false ->
          heap s' !! (length (heap s) + i) = Some t)) /\
    (forall l, l < length (heap s) -> heap s' !! l = heap s !! l) /\
    (forall request w', heap (call_execution_agent request w' s').2 = heap s').
Proof.
  intros Hrun Hd key cred.
  pose proof (discover_and_create_agent_paths query w s) as Hp.
  rewrite Hrun in Hp. inversion Hp as
    [e s1 H|res s1 H|res s1 e H|res s1 objs e H|res s1 objs H Hres Hinit Henum];
    subst; try discriminate Hd.
  assert (heap s1 = heap s) as Hheap.
  { rewrite (search_api_hub_frame _ _ _ _ _ H). cbn.
    unfold forget_agent. by destruct (_execution_agent s). }
  eexists _, (discovered_toolset query w s1 res objs), objs,
    (discover_init_log query w s1 res).
  cbn [installed_state _execution_agent _current_tools heap log tools
       new_execution_agent discovered_toolset ts_tools].
  rewrite Hheap. repeat split; try done.
  - intros Hkey Hauth. rewrite lookup_app_r, Nat.add_comm, Nat.add_sub by lia.
    rewrite list_lookup_fmap, H0. cbn. unfold configured, attach.
    fold key. by rewrite Hkey, Hauth.
  - intros Hauth. rewrite lookup_app_r, Nat.add_comm, Nat.add_sub by lia.
    rewrite list_lookup_fmap, H0. cbn. unfold configured, attach.
    rewrite Hauth. by destruct (str_truthy _).
  - intros Hkey. rewrite lookup_app_r, Nat.add_comm, Nat.add_sub by lia.
    rewrite list_lookup_fmap, H0. cbn. unfold configured.
    fold key. by rewrite Hkey.
  - intros l Hl. by rewrite lookup_app_l.
  - intros request w'.
    destruct (call_execution_agent_frame request w'
                (installed_state query w s1 res objs)) as (d' & lg' & ->).
    cbn. by rewrite Hheap.
Qed.

Lemma credentials_attached_at_materialization_witness :
  heap s_crm !! 0 =
    Some {| tool_name := "get_customer_by_id";
            auth_scheme := Some (Some "apiKey");
            auth_credential := Some {| auth_type := API_KEY; api_key := "k-123" |} |} /\
  heap s_crm !! 1 =
    Some {| tool_name := "list_customers";
            auth_scheme := Some None;
            auth_credential := None |}.
Proof.
  destruct (credentials_attached_at_materialization "customer management"
              w_crm initial_state
              (created_result ["get_customer_by_id"; "list_customers"])
              s_crm)
    as (a & ts & objs & lg & _ & _ & _ & Hinit & _ & _ & Hobjs & _).
  - vm_compute. reflexivity.
  - reflexivity.
  - injection Hinit as <-. split.
    + destruct (Hobjs 0 _ eq_refl) as (Hkey & _). apply Hkey; reflexivity.
    + destruct (Hobjs 1 _ eq_refl) as (_ & Hplain & _). apply Hplain; reflexivity.
Defined.

(** C10: with an agent installed, a delegate run that ends without any text
    (the collected final response is [None]) is reported as
    [{"success": True, "result": None}]. *)
Theorem silent_run_is_success request w s a events :
  _execution_agent s = Some a ->
  runner_run_async w (log s ++ [RunAgent a "execution_agent" "user" request])
    = Return events ->
  collect_final_response events None = Return None ->
  (call_execution_agent request w s).1 =
  Return [("success", VBool true); ("result", VNone)].
Proof.
  intros Ha Hrun Hr. unfold call_execution_agent. unfold_M. rewrite Ha. cbn.
  rewrite Hrun. cbn. by rewrite Hr.
Qed.

Lemma silent_run_is_success_witness :
  (call_execution_agent "get order 456" w_orders s_crm).1 =
  Return [("success", VBool true); ("result", VNone)].
Proof.
  eapply (silent_run_is_success "get order 456" w_orders s_crm).
  - vm_compute. reflexivity.
  - reflexivity.
  - reflexivity.
Defined.

(** * Further properties of the functions *)

(** ** Strings *)

Lemma append_assoc_str (a b c : string) : (a +:+ b) +:+ c = a +:+ b +:+ c.
Proof.
  induction a as [|x a IH]; [reflexivity|].
  change (String x ((a +:+ b) +:+ c) = String x (a +:+ b +:+ c)).
  by rewrite IH.
Qed.

Lemma str_in_app_r (n a b : string) :
  str_in n b = true -> str_in n (a +:+ b) = true.
Proof.
  intros Hb. induction a as [|x a IH]; [done|].
  change (String.prefix n (String x (a +:+ b)) || str_in n (a +:+ b) = true).
  rewrite IH. apply orb_true_r.
Qed.

Lemma str_in_app_l (n a b : string) :
  str_in n a = true -> str_in n (a +:+ b) = true.
Proof.
  rewrite !str_in_occurs. intros (pre & post & ->).
  exists pre, (post +:+ b). by rewrite !append_assoc_str.
Qed.

Lemma str_in_self (n : string) : str_in n n = true.
Proof.
  apply str_in_occurs. exists "", "".
  change (n = n +:+ "").
  induction n as [|x n IH]; [done|].
  change (String x n = String x (n +:+ "")). by rewrite <- IH.
Qed.

Lemma join_contains (sep x : string) (ps : list string) :
  x ∈ ps -> str_in x (join sep ps) = true.
Proof.
  induction ps as [|p ps IH]; intros Hx; [by apply elem_of_nil in Hx|].
  apply elem_of_cons in Hx as [->|Hx].
  - destruct ps; [apply str_in_self|].
    change (str_in p (p +:+ sep +:+ join sep (s :: ps)) = true).
    apply str_in_app_l, str_in_self.
  - destruct ps as [|q ps]; [by apply elem_of_nil in Hx|].
    change (str_in x (p +:+ sep +:+ join sep (q :: ps)) = true).
    by apply str_in_app_r, str_in_app_r, IH.
Qed.

(** X12: the instruction given to a new execution agent lists every tool
    name as a bullet and tells the agent the marker that
    [call_execution_agent] looks for. *)
Theorem instruction_lists_tools_and_sentinel (tool_names : list string) :
  str_in "TOOL_NOT_FOUND" (execution_instruction tool_names) = true /\
  Forall (fun name =>
            str_in ("- " +:+ name) (execution_instruction tool_names) = true)
         tool_names.
Proof.
  unfold execution_instruction. split.
  - do 12 apply str_in_app_r. by apply str_in_app_l.
  - apply Forall_forall. intros name Hname.
    do 5 apply str_in_app_r. apply str_in_app_l, join_contains.
    apply list_elem_of_fmap. by exists name.
Qed.

(** ** Credentials *)

(** X1: [get_apihub_access_token] does not raise when the credential chain
    fails: it returns the value of [APIHUB_ACCESS_TOKEN], or the empty
    string when that variable is not set. *)
Theorem access_token_falls_back w s e :
  credential_chain w (log s ++ [credential_call w]) = Raise e ->
  (get_apihub_access_token w s).1 =
    Return (default "" (environ w !! "APIHUB_ACCESS_TOKEN")) /\
  (environ w !! "APIHUB_ACCESS_TOKEN" = None ->
   (get_apihub_access_token w s).1 = Return "").
Proof.
  intros Hchain. rewrite get_apihub_access_token_eq. unfold access_token_at.
  rewrite Hchain. split; [done|]. by intros ->.
Qed.

Lemma access_token_falls_back_witness :
  (get_apihub_access_token w_fallback_token initial_state).1 =
  Return "static-token".
Proof.
  apply (access_token_falls_back w_fallback_token initial_state
           (mk_exn OtherException "Could not automatically determine credentials")).
  reflexivity.
Defined.

(** ** Search *)

Lemma search_api_hub_log query w s :
  log (search_api_hub query w s).2 =
  if str_truthy (search_url_of w) && str_truthy (access_token_at w (log s))
  then search_log query w s
  else log s ++ [credential_call w].
Proof.
  unfold search_api_hub, get_apihub_search_url.
  unfold bind at 1 2. unfold getenv_default at 1.
  rewrite get_apihub_access_token_eq. fold (search_url_of w).
  destruct (str_truthy (search_url_of w)); [|done].
  destruct (str_truthy (access_token_at w (log s))); [|done].
  cbn [negb andb]. unfold try_except, bind at 1, external at 1.
  cbn [log set_log]. rewrite <- app_assoc. fold (search_log query w s).
  destruct (requests_post w (search_log query w s)) as [data|e].
  - unfold_M. cbn. repeat case_match; simplify_eq; done.
  - by destruct (catch_RequestException e).
Qed.

(** X5: [search_api_hub] never touches the slot or the tool objects.  It asks
    for a token first; without a search URL or without a token it stops
    there, otherwise it sends exactly one POST to the configured URL, with
    the token as bearer and a page size of one. *)
Theorem search_api_hub_effects query w s :
  (search_api_hub query w s).2 =
  set_log
    (if str_truthy (search_url_of w) && str_truthy (access_token_at w (log s))
     then log s ++
          [credential_call w;
           HttpPost (search_url_of w)
             [("Authorization", "Bearer " +:+ access_token_at w (log s));
              ("Content-Type", "application/json")]
             (VDict [("query", VStr query);
                     ("filter", VStr "resource_type = ApiOperation");
                     ("pageSize", VInt 1)])]
     else log s ++ [credential_call w]) s.
Proof.
  pose proof (search_api_hub_log query w s) as Hlog.
  destruct (search_api_hub query w s) as [o s1] eqn:Hrun.
  rewrite (search_api_hub_frame _ _ _ _ _ Hrun).
  cbn [snd] in Hlog |- *. by rewrite Hlog.
Qed.

(** X3: what [search_api_hub] returns is [None] or a truthy value, so the
    caller's [if not apihub_resource_name] fires on [None] only. *)
Theorem search_api_hub_none_or_truthy query w s v :
  (search_api_hub query w s).1 = Return v -> v = VNone \/ truthy v = true.
Proof.
  unfold search_api_hub, get_apihub_search_url.
  unfold bind at 1 2. unfold getenv_default at 1.
  rewrite get_apihub_access_token_eq. unfold_M. cbn. intros H.
  repeat case_match; simplify_eq; cbn in *; simplify_eq; auto.
Qed.

Lemma search_api_hub_none_or_truthy_witness :
  VStr crm_spec = VNone \/ truthy (VStr crm_spec) = true.
Proof.
  apply (search_api_hub_none_or_truthy "customer management" w_crm initial_state).
  vm_compute. reflexivity.
Defined.

(** X2: with URL and token in place, when the response is a dict whose
    [searchResults] list starts with a result carrying a truthy
    [resource.operation.spec], [search_api_hub] returns that spec; the
    results after the first play no part. *)
Theorem search_api_hub_first_result query w s d r o p v rest :
  str_truthy (search_url_of w) = true ->
  str_truthy (access_token_at w (log s)) = true ->
  requests_post w (search_log query w s) = Return (VDict d) ->
  dict_get d "searchResults" = Some (VList (VDict r :: rest)) ->
  dict_get r "resource" = Some (VDict o) ->
  dict_get o "operation" = Some (VDict p) ->
  dict_get p "spec" = Some v ->
  truthy v = true ->
  (search_api_hub query w s).1 = Return v.
Proof.
  intros Hurl Htok Hpost Hd Hr Ho Hp Hv.
  unfold search_api_hub, get_apihub_search_url.
  unfold bind at 1 2. unfold getenv_default at 1.
  rewrite get_apihub_access_token_eq. fold (search_url_of w).
  rewrite Hurl, Htok. cbn [negb].
  unfold try_except, bind at 1, external at 1.
  cbn [log set_log]. rewrite <- app_assoc. fold (search_log query w s).
  rewrite Hpost. unfold_M. cbn. rewrite Hd. cbn. rewrite Hr. cbn.
  rewrite Ho. cbn. rewrite Hp. cbn. by rewrite Hv.
Qed.

Lemma search_api_hub_first_result_witness :
  (search_api_hub "customer management" w_fallback_token initial_state).1 =
  Return (VStr crm_spec).
Proof.
  eapply (search_api_hub_first_result "customer management" w_fallback_token
            initial_state).
  - reflexivity.
  - reflexivity.
  - reflexivity.
  - reflexivity.
  - reflexivity.
  - reflexivity.
  - reflexivity.
  - reflexivity.
Defined.

(** X6: with URL and token in place, a response that is not a JSON object
    makes [search_api_hub] raise an [AttributeError]; its
    [except RequestException] does not stop it. *)
Theorem search_api_hub_bad_shape query w s data :
  str_truthy (search_url_of w) = true ->
  str_truthy (access_token_at w (log s)) = true ->
  requests_post w (search_log query w s) = Return data ->
  (forall d, data <> VDict d) ->
  (search_api_hub query w s).1 =
  Raise (mk_exn AttributeError
           ("'" +:+ type_name data +:+ "' object has no attribute 'get'")).
Proof.
  intros Hurl Htok Hpost Hshape.
  unfold search_api_hub, get_apihub_search_url.
  unfold bind at 1 2. unfold getenv_default at 1.
  rewrite get_apihub_access_token_eq. fold (search_url_of w).
  rewrite Hurl, Htok. cbn [negb].
  unfold try_except, bind at 1, external at 1.
  cbn [log set_log]. rewrite <- app_assoc. fold (search_log query w s).
  rewrite Hpost. unfold_M. cbn.
  destruct data; try done. by destruct (Hshape d).
Qed.

Lemma search_api_hub_bad_shape_witness :
  (search_api_hub "customer management" w_list_response initial_state).1 =
  Raise (mk_exn AttributeError "'list' object has no attribute 'get'").
Proof.
  apply (search_api_hub_bad_shape "customer management" w_list_response
           initial_state (VList [])).
  - reflexivity.
  - reflexivity.
  - reflexivity.
  - intros d. discriminate.
Defined.

Lemma search_api_hub_raises_witness :
  exn_kind (mk_exn AttributeError "'list' object has no attribute 'get'")
  <> RequestException.
Proof.
  apply (search_api_hub_raises "customer management" w_list_response
           initial_state).
  vm_compute. reflexivity.
Defined.

(** ** Toolset construction *)

Lemma lookup_fresh_refs (h objs : list RestApiTool) :
  (fun l => (h ++ objs) !! l) <$> seq (length h) (length objs) = Some <$> objs.
Proof.
  apply list_eq. intros i. rewrite !list_lookup_fmap.
  destruct (decide (i < length objs)) as [Hi|Hi].
  - rewrite lookup_seq_lt by done. cbn.
    rewrite lookup_app_r by lia.
    replace (length h + i - length h) with i by lia.
    destruct (objs !! i) as [t|] eqn:E; [done|].
    apply lookup_ge_None in E. lia.
  - rewrite lookup_seq_ge by lia. by rewrite (lookup_ge_None_2 objs) by lia.
Qed.

(** X7: [create_toolset_from_apihub] never raises and never touches the
    slot or the tool objects that exist already.  It returns [None] when
    the constructor raised; otherwise it returns a toolset with the given
    name, description and resource, whose tools are the objects the
    constructor built. *)
Theorem create_toolset_from_apihub_total res name description w s :
  exists o s',
    create_toolset_from_apihub res name description w s = (Return o, s') /\
    _execution_agent s' = _execution_agent s /\
    _execution_agent_tool s' = _execution_agent_tool s /\
    _current_tools s' = _current_tools s /\
    heap s `prefix_of` heap s' /\
    match apihub_toolset_init w
            (toolset_init_log w s res name description) with
    | Raise _ => o = None
    | Return objs =>
        exists ts, o = Some ts /\
          ts_name ts = name /\ ts_description ts = description /\
          ts_apihub_resource_name ts = res /\
          (fun l => heap s' !! l) <$> ts_tools ts = Some <$> objs
    end.
Proof.
  rewrite create_toolset_from_apihub_eq. cbn zeta.
  destruct (apihub_toolset_init w _) as [objs|e]; eexists _, _;
    (split; [reflexivity|]); cbn; repeat split; try done.
  - by apply prefix_app_r.
  - eexists. repeat split. apply lookup_fresh_refs.
Qed.

(** ** Invariants of the slot *)

Lemma slot_wellformed_consistent s : slot_wellformed s -> slot_consistent s.
Proof.
  unfold slot_wellformed, slot_consistent. intros H Ha. by rewrite Ha in H.
Qed.

Lemma slot_empty_wellformed s : slot_empty s -> slot_wellformed s.
Proof.
  unfold slot_wellformed. intros (Ha & Ht & Hn). by rewrite Ha.
Qed.

Lemma installed_state_wellformed query w s1 res objs :
  slot_wellformed (installed_state query w s1 res objs).
Proof.
  unfold slot_wellformed. cbn. repeat split. by eexists.
Qed.

Lemma discover_keeps_wellformed query w s :
  slot_wellformed s ->
  slot_wellformed (discover_and_create_agent query w s).2.
Proof.
  intros Hs. apply slot_wellformed_consistent, forget_agent_empty in Hs.
  destruct (discover_and_create_agent_paths query w s)
    as [e s1 H|res s1 H|res s1 e H|res s1 objs e H|res s1 objs H];
    try (apply (search_keeps_empty _ _ _ _ _ H) in Hs;
         by apply slot_empty_wellformed).
  apply installed_state_wellformed.
Qed.

Lemma reachable_wellformed s : reachable s -> slot_wellformed s.
Proof.
  induction 1 as [|s query w _ IH|s request w _ IH|s w _ IH].
  - by apply slot_empty_wellformed.
  - by apply discover_keeps_wellformed.
  - destruct (call_execution_agent_frame request w s) as (d & lg & ->).
    exact IH.
  - by apply slot_empty_wellformed.
Qed.

(** X10: in every state the entry points can reach, the handle in the slot
    wraps the agent in the slot, and there is a handle exactly when there
    is an agent. *)
Theorem handle_wraps_agent s :
  reachable s ->
  _execution_agent_tool s = mk_AgentTool <$> _execution_agent s.
Proof.
  intros Hs. apply reachable_wellformed in Hs. unfold slot_wellformed in Hs.
  destruct (_execution_agent s); by destruct Hs as [-> _].
Qed.

Lemma handle_wraps_agent_witness :
  _execution_agent_tool s_crm = mk_AgentTool <$> _execution_agent s_crm.
Proof. apply (handle_wraps_agent s_crm). apply reach_discover, reach_initial. Defined.

(** X11: in every reachable state that holds an agent, the agent's
    instruction is the one built from the names in [_current_tools], and
    the agent was given exactly one toolset. *)
Theorem current_tools_are_agent_tools s a :
  reachable s ->
  _execution_agent s = Some a ->
  instruction a = execution_instruction (_current_tools s) /\
  exists ts, tools a = [ts].
Proof.
  intros Hs Ha. apply reachable_wellformed in Hs. unfold slot_wellformed in Hs.
  rewrite Ha in Hs. by destruct Hs as (_ & ? & ?).
Qed.

Lemma current_tools_are_agent_tools_witness :
  exists a, _execution_agent s_crm = Some a /\
    instruction a =
      execution_instruction ["get_customer_by_id"; "list_customers"] /\
    exists ts, tools a = [ts].
Proof.
  eexists. split; [vm_compute; reflexivity|].
  eapply (current_tools_are_agent_tools s_crm).
  - apply reach_discover, reach_initial.
  - vm_compute. reflexivity.
Defined.

(** X13: no entry point changes or drops a tool object that exists already:
    a discovery only adds objects to the store, whether it succeeds, fails
    or raises, and the other two leave the store alone. *)
Theorem entry_points_keep_tool_objects query request w s :
  heap s `prefix_of` heap (discover_and_create_agent query w s).2 /\
  heap (call_execution_agent request w s).2 = heap s /\
  heap (reset_execution_agent w s).2 = heap s.
Proof.
  split; [|split; [|reflexivity]].
  - assert (forall o s1, search_api_hub query w (forget_agent s) = (o, s1) ->
                         heap s1 = heap s) as Hheap.
    { intros o s1 H. rewrite (search_api_hub_frame _ _ _ _ _ H). cbn.
      unfold forget_agent. by destruct (_execution_agent s). }
    destruct (discover_and_create_agent_paths query w s)
      as [e s1 H|res s1 H|res s1 e H|res s1 objs e H|res s1 objs H];
      cbn; rewrite (Hheap _ _ H); try done; by apply prefix_app_r.
  - by destruct (call_execution_agent_frame request w s) as (d & lg & ->).
Qed.

(** ** Discovery *)

(** X9: from a reachable state, the dict a discovery returns says
    [success: True] exactly when the slot holds an agent afterwards. *)
Theorem success_flag_tells_agent query w s d s' :
  reachable s ->
  discover_and_create_agent query w s = (Return d, s') ->
  (dict_get d "success" = Some (VBool true) /\ is_Some (_execution_agent s')) \/
  (dict_get d "success" = Some (VBool false) /\ _execution_agent s' = None).
Proof.
  intros Hs Hrun. apply reachable_consistent, forget_agent_empty in Hs.
  pose proof (discover_and_create_agent_paths query w s) as Hp.
  rewrite Hrun in Hp. inversion Hp as
    [e s1 H|res s1 H|res s1 e H|res s1 objs e H|res s1 objs H]; subst.
  - right. split; [done|]. by apply (search_keeps_empty _ _ _ _ _ H).
  - right. split; [done|]. by apply (search_keeps_empty _ _ _ _ _ H).
  - left. by split.
Qed.

Lemma success_flag_tells_agent_witness :
  (dict_get (created_result ["get_order_by_id"]) "success" = Some (VBool true) /\
   is_Some (_execution_agent
              (discover_and_create_agent "orders" w_orders s_crm).2)) \/
  (dict_get (created_result ["get_order_by_id"]) "success" = Some (VBool false) /\
   _execution_agent (discover_and_create_agent "orders" w_orders s_crm).2 = None).
Proof.
  apply (success_flag_tells_agent "orders" w_orders s_crm).
  - apply reach_discover, reach_initial.
  - vm_compute. reflexivity.
Defined.

(** X21: a discovery that ends with the no-match result has built nothing:
    the tool store is as before and the only external calls made were the
    token request and at most one search request. *)
Theorem no_match_builds_nothing query w s s' :
  discover_and_create_agent query w s = (Return (no_api_result query), s') ->
  heap s' = heap s /\
  exists calls, log s' = log s ++ calls /\
    forallb is_search_call calls = true /\ length calls <= 2.
Proof.
  intros Hrun.
  pose proof (discover_and_create_agent_paths query w s) as Hp.
  rewrite Hrun in Hp. inversion Hp as
    [e s1 H|res s1 H|res s1 e H|res s1 objs e H|res s1 objs H]; subst.
  pose proof (search_api_hub_log query w (forget_agent s)) as Hlog.
  rewrite H in Hlog. cbn [snd] in Hlog.
  assert (log (forget_agent s) = log s) as Hl.
  { unfold forget_agent. by destruct (_execution_agent s). }
  split.
  - rewrite (search_api_hub_frame _ _ _ _ _ H). cbn.
    unfold forget_agent. by destruct (_execution_agent s).
  - rewrite Hlog. clear Hlog. unfold search_log. rewrite Hl.
    destruct (_ && _); eexists; (split; [reflexivity|]); cbn; split; (done || lia).
Qed.

Lemma no_match_builds_nothing_witness :
  heap (discover_and_create_agent "shipping" w_nomatch s_crm).2 = heap s_crm.
Proof.
  apply (no_match_builds_nothing "shipping" w_nomatch s_crm).
  vm_compute. reflexivity.
Defined.

Lemma discover_raises_only_from_witness :
  (search_api_hub "customer management" w_enumeration_fails
     (forget_agent initial_state)).1 =
    Raise (mk_exn OtherException "tool enumeration failed") \/
  exists lg, toolset_get_tools w_enumeration_fails lg =
             Raise (mk_exn OtherException "tool enumeration failed").
Proof.
  apply (discover_raises_only_from "customer management" w_enumeration_fails
           initial_state).
  vm_compute. reflexivity.
Defined.

(** ** The event loop of [call_execution_agent] *)

Lemma collect_final_response_app (e1 e2 : list Event) : forall acc,
  collect_final_response (e1 ++ e2) acc =
  match collect_final_response e1 acc with
  | Return a => collect_final_response e2 a
  | Raise e => Raise e
  end.
Proof.
  induction e1 as [|ev e1 IH]; intros acc; [reflexivity|].
  cbn. destruct (content ev) as [c|]; [|apply IH].
  destruct (parts c); [apply IH|reflexivity].
Qed.

(** X16: the last non-empty text wins.  When the events seen so far leave
    [a] as response, one more event with a single text part [t] makes the
    response [t] if [t] is non-empty and leaves it at [a] if [t] is
    empty. *)
Theorem last_nonempty_text_wins events acc a t :
  collect_final_response events acc = Return a ->
  collect_final_response
    (events ++ [{| content := Some {| parts := Some [{| text := Some t |}] |} |}])
    acc =
  Return (if str_truthy t then Some t else a).
Proof. intros H. rewrite collect_final_response_app, H. reflexivity. Qed.

Lemma last_nonempty_text_wins_witness :
  collect_final_response
    ([text_event "Looking up the customer."; text_event ""] ++
     [{| content := Some {| parts := Some [{| text := Some "Done: John" |}] |} |}])
    None =
  Return (Some "Done: John").
Proof.
  apply (last_nonempty_text_wins
           [text_event "Looking up the customer."; text_event ""] None
           (Some "Looking up the customer.") "Done: John").
  reflexivity.
Defined.

Lemma last_text_origin (ps : list Part) : forall acc r,
  last_text acc ps = Some r ->
  acc = Some r \/
  (str_truthy r = true /\ exists p, p ∈ ps /\ text p = Some r).
Proof.
  unfold last_text. induction ps as [|p ps IH]; intros acc r H; [by left|].
  cbn in H. apply IH in H as [H|(Hr & q & Hq & Hqt)].
  - destruct (text p) as [t|] eqn:Ht; [|by left].
    destruct (str_truthy t) eqn:Htt; [|by left].
    injection H as ->. right. split; [done|]. exists p. split; [left|done].
  - right. split; [done|]. exists q. split; [by right|done].
Qed.

Lemma collect_origin (events : list Event) : forall acc r,
  collect_final_response events acc = Return (Some r) ->
  acc = Some r \/
  (str_truthy r = true /\
   exists ev c ps p, ev ∈ events /\ content ev = Some c /\
     parts c = Some ps /\ p ∈ ps /\ text p = Some r).
Proof.
  induction events as [|ev events IH]; intros acc r H.
  - left. by injection H.
  - cbn in H. destruct (content ev) as [c|] eqn:Hc.
    + destruct (parts c) as [ps|] eqn:Hps; [|discriminate].
      apply IH in H as [H|(Hr & ev' & c' & ps' & p & Hev & ?)].
      * apply last_text_origin in H as [H|(Hr & p & Hp & Ht)]; [by left|].
        right. split; [done|]. exists ev, c, ps, p. by repeat split; [left|..].
      * right. split; [done|]. exists ev', c', ps', p. split; [by right|done].
    + apply IH in H as [H|(Hr & ev' & c' & ps' & p & Hev & ?)]; [by left|].
      right. split; [done|]. exists ev', c', ps', p. split; [by right|done].
Qed.

(** X18: a response the loop arrives at is never made up and never empty:
    it is the non-empty text of a part of one of the events. *)
Theorem final_response_comes_from_events events r :
  collect_final_response events None = Return (Some r) ->
  r <> "" /\
  exists ev c ps p, ev ∈ events /\ content ev = Some c /\
    parts c = Some ps /\ p ∈ ps /\ text p = Some r.
Proof.
  intros H. apply collect_origin in H as [H|(Hr & H)]; [discriminate|].
  split; [|done]. intros ->. discriminate Hr.
Qed.

Lemma final_response_comes_from_events_witness :
  "Done: John" <> "" /\
  exists ev c ps p,
    ev ∈ [text_event "Looking up the customer."; text_event "Done: John"] /\
    content ev = Some c /\ parts c = Some ps /\ p ∈ ps /\
    text p = Some "Done: John".
Proof.
  apply (final_response_comes_from_events
           [text_event "Looking up the customer."; text_event "Done: John"]).
  reflexivity.
Defined.

(** ** Calling the execution agent *)

(** X15: [call_execution_agent] never changes the slot or a tool object.
    With an agent in the slot it starts exactly one run, of that agent with
    the given request; without one it starts none.  It returns a dict,
    unless the run is cancelled: a [CancelledError] is the only exception
    it raises. *)
Theorem call_execution_agent_effects request w s :
  exists o,
    call_execution_agent request w s =
    (o,
     set_log (match _execution_agent s with
              | Some a => log s ++ [RunAgent a "execution_agent" "user" request]
              | None => log s
              end) s) /\
    match o with
    | Return _ => True
    | Raise e => exn_kind e = CancelledError
    end.
Proof.
  unfold call_execution_agent. unfold_M.
  destruct s as [[a|] t names h lg]; cbn; [|by eexists].
  destruct (runner_run_async w _) as [events|e]; cbn.
  - destruct (collect_final_response events None) as [[r|]|e]; cbn;
      try destruct (_ && _); try (by eexists).
    unfold catch_Exception. destruct (exn_kind e) eqn:He; by eexists.
  - unfold catch_Exception. destruct (exn_kind e) eqn:He; by eexists.
Qed.

(** X14: with an agent in the slot, a failure of the run (the runner raises,
    or the loop over its events does) with an exception that derives from
    [Exception] is returned as
    [{"error": "Execution agent failed: <str(e)>"}]; a [CancelledError]
    passes the [except Exception] clause and is raised to the caller. *)
Theorem run_failure_is_error_dict request w s a e :
  _execution_agent s = Some a ->
  (runner_run_async w (log s ++ [RunAgent a "execution_agent" "user" request])
     = Raise e \/
   exists events,
     runner_run_async w (log s ++ [RunAgent a "execution_agent" "user" request])
       = Return events /\
     collect_final_response events None = Raise e) ->
  (call_execution_agent request w s).1 =
  match exn_kind e with
  | CancelledError => Raise e
  | _ => Return [("error", VStr ("Execution agent failed: " +:+ exn_str e))]
  end.
Proof.
  intros Ha Hfail. unfold call_execution_agent. unfold_M. rewrite Ha. cbn.
  destruct Hfail as [->|(events & -> & Hc)]; cbn; [|rewrite Hc; cbn];
    unfold catch_Exception; by destruct (exn_kind e).
Qed.

Lemma run_failure_is_error_dict_witness :
  (call_execution_agent "get customer 123" w_runner_fails s_crm).1 =
    Return [("error", VStr "Execution agent failed: model quota exceeded")] /\
  (call_execution_agent "get customer 123" w_run_cancelled s_crm).1 =
    Raise (mk_exn CancelledError "").
Proof.
  split.
  - eapply (run_failure_is_error_dict "get customer 123" w_runner_fails s_crm _
              (mk_exn OtherException "model quota exceeded")).
    + vm_compute. reflexivity.
    + left. reflexivity.
  - eapply (run_failure_is_error_dict "get customer 123" w_run_cancelled s_crm _
              (mk_exn CancelledError "")).
    + vm_compute. reflexivity.
    + left. reflexivity.
Defined.

(** X17: in a reachable state, the negative result of
    [call_execution_agent] carries the delegate's text as message and,
    under [current_tools], the list of names that the instruction of the
    agent that was run was built from. *)
Theorem tool_not_found_lists_agent_tools request w s a events r :
  reachable s ->
  _execution_agent s = Some a ->
  runner_run_async w (log s ++ [RunAgent a "execution_agent" "user" request])
    = Return events ->
  collect_final_response events None = Return (Some r) ->
  str_in "TOOL_NOT_FOUND" r = true ->
  exists d names,
    (call_execution_agent request w s).1 = Return d /\
    dict_get d "message" = Some (VStr r) /\
    dict_get d "current_tools" = Some (VList (VStr <$> names)) /\
    instruction a = execution_instruction names.
Proof.
  intros Hs Ha Hrun Hr Hin.
  apply reachable_wellformed in Hs. unfold slot_wellformed in Hs.
  rewrite Ha in Hs. destruct Hs as (_ & Hinstr & _).
  unfold call_execution_agent. unfold_M. rewrite Ha. cbn.
  rewrite Hrun. cbn. rewrite Hr. cbn. rewrite Hin.
  assert (str_truthy r = true) as ->.
  { destruct r; [discriminate Hin | reflexivity]. }
  cbn. eexists _, _. by repeat split.
Qed.

Lemma tool_not_found_lists_agent_tools_witness :
  exists d names,
    (call_execution_agent "ship order 456" w_crm s_crm).1 = Return d /\
    dict_get d "message" =
      Some (VStr "Sorry, TOOL_NOT_FOUND: need a shipping API") /\
    dict_get d "current_tools" = Some (VList (VStr <$> names)) /\
    instruction
      (new_execution_agent "customer management"
         ["get_customer_by_id"; "list_customers"]
         (mk_APIHubToolset "discovered-api"
            "API discovered for: customer management" "tok"
            (VStr crm_spec) [0; 1])) =
    execution_instruction names.
Proof.
  eapply (tool_not_found_lists_agent_tools "ship order 456" w_crm s_crm).
  - apply reach_discover, reach_initial.
  - vm_compute. reflexivity.
  - reflexivity.
  - reflexivity.
  - reflexivity.
Defined.

(** ** Sequences of entry points *)

(** X19: after a successful discovery, [reset_execution_agent] reports
    under [previous_tools] exactly the list the discovery returned under
    [tools], leaves the slot empty, and makes no external call. *)
Theorem reset_reports_discovered_tools query w w' s d s1 :
  discover_and_create_agent query w s = (Return d, s1) ->
  dict_get d "success" = Some (VBool true) ->
  exists d' s2,
    reset_execution_agent w' s1 = (Return d', s2) /\
    dict_get d' "success" = Some (VBool true) /\
    is_Some (dict_get d "tools") /\
    dict_get d' "previous_tools" = dict_get d "tools" /\
    slot_empty s2 /\ heap s2 = heap s1 /\ log s2 = log s1.
Proof.
  intros Hrun Hd.
  pose proof (discover_and_create_agent_paths query w s) as Hp.
  rewrite Hrun in Hp. inversion Hp as
    [| | | |res2 s2' objs2 Hs2 _ _ _]; subst; try discriminate Hd.
  eexists _, _. split; [apply reset_execution_agent_eq|]. by repeat split.
Qed.

Lemma reset_reports_discovered_tools_witness :
  exists d' s2,
    reset_execution_agent w_nomatch s_crm = (Return d', s2) /\
    dict_get d' "success" = Some (VBool true) /\
    is_Some (dict_get (created_result ["get_customer_by_id"; "list_customers"])
               "tools") /\
    dict_get d' "previous_tools" =
      dict_get (created_result ["get_customer_by_id"; "list_customers"]) "tools" /\
    slot_empty s2 /\ heap s2 = heap s_crm /\ log s2 = log s_crm.
Proof.
  apply (reset_reports_discovered_tools "customer management" w_crm w_nomatch
           initial_state).
  - vm_compute. reflexivity.
  - reflexivity.
Defined.

(** X20: from a reachable state, after a discovery that returned
    [success: False] the next [call_execution_agent] gets the no-agent
    error and reaches no delegate. *)
Theorem call_after_failed_discovery query request w w' s d s' :
  reachable s ->
  discover_and_create_agent query w s = (Return d, s') ->
  dict_get d "success" = Some (VBool false) ->
  call_execution_agent request w' s' =
  (Return [("error",
            VStr "No execution agent created. Call discover_and_create_agent first.")],
   s').
Proof.
  intros Hs Hrun Hd. apply reachable_consistent, forget_agent_empty in Hs.
  pose proof (discover_and_create_agent_paths query w s) as Hp.
  rewrite Hrun in Hp.
  assert (_execution_agent s' = None) as Ha.
  { inversion Hp as
      [e s1 H|res s1 H|res s1 e H|res s1 objs e H|res s1 objs H]; subst;
      try discriminate Hd;
      by apply (search_keeps_empty _ _ _ _ _ H) in Hs as (? & _). }
  unfold call_execution_agent. unfold_M. by rewrite Ha.
Qed.

Lemma call_after_failed_discovery_witness :
  call_execution_agent "ship order 456" w_crm
    (discover_and_create_agent "shipping" w_nomatch s_crm).2 =
  (Return [("error",
            VStr "No execution agent created. Call discover_and_create_agent first.")],
   (discover_and_create_agent "shipping" w_nomatch s_crm).2).
Proof.
  eapply (call_after_failed_discovery "shipping" "ship order 456" w_nomatch
            w_crm s_crm).
  - apply reach_discover, reach_initial.
  - vm_compute. reflexivity.
  - reflexivity.
Defined.

(** X22: the dict of a successful discovery lists under [tools] the names
    now stored in [_current_tools], and its message counts them. *)
Theorem success_dict_reports_current_tools query w s d s' :
  discover_and_create_agent query w s = (Return d, s') ->
  dict_get d "success" = Some (VBool true) ->
  dict_get d "tools" = Some (VList (VStr <$> _current_tools s')) /\
  dict_get d "message" =
    Some (VStr ("Created execution agent with " +:+
                pretty (length (_current_tools s')) +:+ " tools")).
Proof.
  intros Hrun Hd.
  pose proof (discover_and_create_agent_paths query w s) as Hp.
  rewrite Hrun in Hp. inversion Hp as
    [| | | |res s1 objs H _ _ _]; subst; try discriminate Hd.
  by split.
Qed.

Lemma success_dict_reports_current_tools_witness :
  dict_get (created_result ["get_customer_by_id"; "list_customers"]) "tools" =
    Some (VList (VStr <$> _current_tools s_crm)) /\
  dict_get (created_result ["get_customer_by_id"; "list_customers"]) "message" =
    Some (VStr ("Created execution agent with " +:+
                pretty (length (_current_tools s_crm)) +:+ " tools")).
Proof.
  apply (success_dict_reports_current_tools "customer management" w_crm
           initial_state).
  - vm_compute. reflexivity.
  - reflexivity.
Defined.

(** X23: when the search URL is not set, or no token is obtained, a
    discovery returns the no-match result whatever the other collaborators
    would do; it has asked for a token and done nothing else, and the slot
    is as step 0 left it. *)
Theorem unconfigured_discovery_fails query w s :
  search_url_of w = "" \/ access_token_at w (log s) = "" ->
  discover_and_create_agent query w s =
  (Return [("success", VBool false);
           ("message", VStr ("No API found matching: " +:+ query))],
   set_log (log s ++ [credential_call w]) (forget_agent s)).
Proof.
  intros Hcfg.
  assert (log (forget_agent s) = log s) as Hl.
  { unfold forget_agent. by destruct (_execution_agent s). }
  assert (search_api_hub query w (forget_agent s) =
          (Return VNone,
           set_log (log s ++ [credential_call w]) (forget_agent s))) as Hsearch.
  { unfold search_api_hub, get_apihub_search_url.
    unfold bind at 1 2. unfold getenv_default at 1.
    rewrite get_apihub_access_token_eq, Hl. fold (search_url_of w).
    destruct Hcfg as [-> | ->]; [done|].
    by destruct (str_truthy (search_url_of w)). }
  pose proof (discover_and_create_agent_paths query w s) as Hp.
  destruct (discover_and_create_agent query w s) as [o s'].
  inversion Hp as
    [e s1 H|res s1 H|res s1 e H|res s1 objs e H|res s1 objs H];
    rewrite Hsearch in H; simplify_eq; done.
Qed.

Lemma unconfigured_discovery_fails_witness :
  discover_and_create_agent "customer management" w_unconfigured s_crm =
  (Return [("success", VBool false);
           ("message", VStr ("No API found matching: " +:+ "customer management"))],
   set_log (log s_crm ++ [credential_call w_unconfigured]) (forget_agent s_crm)).
Proof.
  apply (unconfigured_discovery_fails "customer management" w_unconfigured s_crm).
  left. reflexivity.
Defined.
